(** * docshot: pagination, line classification, file naming and the
      docload image-reference wrapper

    A shallow embedding of [src/generator.ts] (the paginator, the line
    classifier, the page renderer's drawing loop and the file namer), of
    the line splitting of [src/index.ts], and of the [docload] wrapper
    script (directory validation, PNG discovery, reference string and
    argument forwarding).

    JavaScript strings are sequences of UTF-16 code units and are modelled
    as [list N]; JavaScript integers that index arrays are modelled as [Z];
    arrays are lists. *)

From Stdlib Require Import Ascii String.
From Stdlib Require Import ZArith NArith Arith Lia List Bool.
From Stdlib Require Import Permutation DecimalString DecimalNat.
Import ListNotations.

Local Open Scope Z_scope.

(* ================================================================= *)
(** ** JavaScript strings and arrays *)

(** A string is the list of its UTF-16 code units. *)
Definition jsstring : Type := list N.

(** An ASCII literal of the source, as code units. *)
Definition lit (s : string) : jsstring :=
  map N_of_ascii (list_ascii_of_string s).

(** [Array.prototype.slice(start, end)]: negative indices count from the
    end, both bounds are clamped to the length, and an empty range gives
    the empty array. *)
Definition slice {A : Type} (l : list A) (s e : Z) : list A :=
  let len := Z.of_nat (length l) in
  let k := if s <? 0 then Z.max (len + s) 0 else Z.min s len in
  let fin := if e <? 0 then Z.max (len + e) 0 else Z.min e len in
  firstn (Z.to_nat (fin - k)) (skipn (Z.to_nat k) l).

(* ================================================================= *)
(** ** JavaScript string operations used by the sources *)

Module JSString.

Local Open Scope N_scope.

(** The code units removed by [String.prototype.trim]: ECMAScript
    WhiteSpace (TAB, VT, FF, SP, NBSP, ZWNBSP and the Unicode space
    separators) and LineTerminator (LF, CR, LS, PS). *)
Definition isWhiteSpace (c : N) : bool :=
  (c =? 9) || (c =? 10) || (c =? 11) || (c =? 12) || (c =? 13)
  || (c =? 32) || (c =? 160) || (c =? 5760)
  || ((8192 <=? c) && (c <=? 8202))
  || (c =? 8232) || (c =? 8233) || (c =? 8239) || (c =? 8287)
  || (c =? 12288) || (c =? 65279).

Fixpoint trimStart (s : jsstring) : jsstring :=
  match s with
  | [] => []
  | c :: r => if isWhiteSpace c then trimStart r else s
  end.

Definition trimEnd (s : jsstring) : jsstring := rev (trimStart (rev s)).

(** [s.trim()]. *)
Definition trim (s : jsstring) : jsstring := trimEnd (trimStart s).

(** [s.startsWith(p)]. *)
Fixpoint startsWith (s p : jsstring) {struct p} : bool :=
  match p, s with
  | [], _ => true
  | _ :: _, [] => false
  | a :: p', b :: s' => (a =? b) && startsWith s' p'
  end.

Fixpoint eqb (s t : jsstring) : bool :=
  match s, t with
  | [], [] => true
  | a :: s', b :: t' => (a =? b) && eqb s' t'
  | _, _ => false
  end.

(** [s.endsWith(p)]: the last [p.length] code units of [s] are [p]. *)
Definition endsWith (s p : jsstring) : bool :=
  (length p <=? length s)%nat && eqb (skipn (length s - length p) s) p.

(** ASCII lower-casing of one code unit.  [String.prototype.toLowerCase]
    uses the Unicode case mapping; the model maps [A-Z] to [a-z] and
    leaves every other code unit alone.  The sources only test the
    lower-cased name for the ASCII suffix [.png], and the Unicode mapping
    of a character outside [A-Z] never yields one of the ASCII code units
    of that suffix. *)
Definition lowerUnit (c : N) : N :=
  if (65 <=? c) && (c <=? 90) then c + 32 else c.

Definition toLowerCase (s : jsstring) : jsstring := map lowerUnit s.

(** The word characters of a regular expression without the [u] and [i]
    flags: [A-Za-z0-9_]. *)
Definition isWordChar (c : N) : bool :=
  ((97 <=? c) && (c <=? 122)) || ((65 <=? c) && (c <=? 90))
  || ((48 <=? c) && (c <=? 57)) || (c =? 95).

Definition wordCharAt (s : jsstring) (pos : nat) : bool :=
  match nth_error s pos with
  | Some c => isWordChar c
  | None => false
  end.

(** The assertion [\b] at index [pos]: exactly one of the code units
    before and after the position is a word character (a missing
    neighbour counts as a non-word character). *)
Definition wordBoundaryAt (s : jsstring) (pos : nat) : bool :=
  xorb (match pos with O => false | S q => wordCharAt s q end)
       (wordCharAt s pos).

(** [sep.join]: [parts.join(sep)]. *)
Fixpoint join (sep : jsstring) (parts : list jsstring) : jsstring :=
  match parts with
  | [] => []
  | [p] => p
  | p :: rest => p ++ sep ++ join sep rest
  end.

(** [s.padStart(n, fill)] for a one-unit [fill]: the string is extended on
    the left up to length [n]; a longer string is returned unchanged. *)
Definition padStart (s : jsstring) (n : nat) (fill : N) : jsstring :=
  repeat fill (n - length s) ++ s.

(** [s.padEnd(n, fill)] for a one-unit [fill]. *)
Definition padEnd (s : jsstring) (n : nat) (fill : N) : jsstring :=
  s ++ repeat fill (n - length s).

(** [String(n)] for a non-negative integer below [10^21]: its decimal
    digits. *)
Definition ofNat (n : nat) : jsstring :=
  lit (NilEmpty.string_of_uint (Nat.to_uint n)).

(** [String(z)] for an integer. *)
Definition ofZ (z : Z) : jsstring :=
  if (z <? 0)%Z then 45 :: ofNat (Z.to_nat (- z)) else ofNat (Z.to_nat z).

(** [s.split(sep)] for a separator of one code unit; the result is never
    empty. *)
Fixpoint split (sep : N) (s : jsstring) : list jsstring :=
  match s with
  | [] => [[]]
  | c :: r =>
      if c =? sep then [] :: split sep r
      else match split sep r with
           | [] => [[c]]
           | w :: ws => (c :: w) :: ws
           end
  end.

(** The comparison of the default [Array.prototype.sort]: code unit by
    code unit, a proper prefix first. *)
Fixpoint leb (s t : jsstring) : bool :=
  match s, t with
  | [], _ => true
  | _ :: _, [] => false
  | a :: s', b :: t' => (a <? b) || ((a =? b) && leb s' t')
  end.

Fixpoint insert (x : jsstring) (l : list jsstring) : list jsstring :=
  match l with
  | [] => [x]
  | y :: r => if leb x y then x :: l else y :: insert x r
  end.

(** [arr.sort()] on an array of strings: a stable sort for [leb]. *)
Fixpoint sort (l : list jsstring) : list jsstring :=
  match l with
  | [] => []
  | x :: r => insert x (sort r)
  end.

End JSString.

(* ================================================================= *)
(** ** generator.ts: the paginator *)

Module Paginator.

(** [Math.ceil(a / b)] on integers, for a divisor [b <> 0]: the ceiling of
    the real quotient. *)
Definition ceil_div (a b : Z) : Z := - ((- a) / b).

(** [const totalPages = Math.ceil(lines.length / linesPerPage)]. *)
Definition totalPages (lines : list jsstring) (linesPerPage : Z) : Z :=
  ceil_div (Z.of_nat (length lines)) linesPerPage.

(** The loop
    [for (let i = 0; i < lines.length; i += linesPerPage)
       pages.push(lines.slice(i, i + linesPerPage))].
    The loop does not terminate when [linesPerPage <= 0] and the document
    is not empty, so the model counts iterations down from [fuel] and
    returns [None] when the fuel is spent. *)
Fixpoint paginate_loop (fuel : nat) (lines : list jsstring)
    (linesPerPage i : Z) (pages : list (list jsstring))
    : option (list (list jsstring)) :=
  match fuel with
  | O => None
  | S fuel' =>
      if i <? Z.of_nat (length lines)
      then paginate_loop fuel' lines linesPerPage (i + linesPerPage)
             (pages ++ [slice lines i (i + linesPerPage)])
      else Some pages
  end.

Definition paginate (fuel : nat) (lines : list jsstring) (linesPerPage : Z)
    : option (list (list jsstring)) :=
  paginate_loop fuel lines linesPerPage 0 [].

(** [const startLineNum = pageNum * linesPerPage + 1]. *)
Definition startLineNum (pageNum linesPerPage : Z) : Z :=
  pageNum * linesPerPage + 1.

End Paginator.

(* ================================================================= *)
(** ** generator.ts: colours and the line classifier *)

Module Generator.
Import JSString.

Definition BG_COLOR : jsstring := lit "rgb(30, 30, 30)".
Definition TEXT_COLOR : jsstring := lit "rgb(212, 212, 212)".
Definition COMMENT_COLOR : jsstring := lit "rgb(106, 153, 85)".
Definition KEYWORD_COLOR : jsstring := lit "rgb(86, 156, 214)".
Definition STRING_COLOR : jsstring := lit "rgb(206, 145, 120)".
Definition NUMBER_COLOR : jsstring := lit "rgb(181, 206, 168)".
Definition LINE_NUMBER_COLOR : jsstring := lit "rgb(133, 133, 133)".

Definition PADDING : Z := 40.

(** The alternatives of the keyword regular expression, in source order. *)
Definition KEYWORDS : list jsstring :=
  map lit
    ["function"; "const"; "let"; "var"; "class"; "import"; "export";
     "return"; "if"; "else"; "for"; "while"; "async"; "await";
     "interface"; "type"; "enum"]%string.

(** [/^(function|const|...|enum)\b/.test(s)]: the match is anchored at
    index 0; it succeeds when some alternative is a prefix of [s] and the
    assertion [\b] holds right after that alternative. *)
Definition keywordRegexTest (s : jsstring) : bool :=
  existsb (fun kw => startsWith s kw && wordBoundaryAt s (length kw))
          KEYWORDS.

(** The [return] statement of [getLineColor] that produces the result. *)
Inductive Branch : Type :=
  | ByComment | ByMarkdownHeader | ByKeyword | ByDefault.

Definition getLineBranch (line : jsstring) : Branch :=
  let trimmed := trim line in
  if startsWith trimmed (lit "#") || startsWith trimmed (lit "//")
  then ByComment
  else if startsWith trimmed (lit "#") then ByMarkdownHeader
  else if keywordRegexTest trimmed then ByKeyword
  else ByDefault.

Definition branchColor (b : Branch) : jsstring :=
  match b with
  | ByComment => COMMENT_COLOR
  | ByMarkdownHeader => KEYWORD_COLOR
  | ByKeyword => KEYWORD_COLOR
  | ByDefault => TEXT_COLOR
  end.

(** [function getLineColor(line: string): string]. *)
Definition getLineColor (line : jsstring) : jsstring :=
  branchColor (getLineBranch line).

End Generator.

(* ================================================================= *)
(** ** generator.ts: the file namer *)

Module FileNamer.
Import JSString.

(** [`page_${String(currentPage).padStart(3, '0')}.png`] with
    [currentPage = pageNum + 1]; 48 is the code unit of the digit zero. *)
Definition fileName (pageNum : nat) : jsstring :=
  let currentPage := (pageNum + 1)%nat in
  lit "page_" ++ padStart (ofNat currentPage) 3 48 ++ lit ".png".

(** The names of pages [0], ..., [n - 1] in generation order. *)
Definition fileNames (n : nat) : list jsstring := map fileName (seq 0 n).

End FileNamer.

(* ================================================================= *)
(** ** generator.ts: the page renderer *)

Module Renderer.
Import JSString Generator.

(** The numbers of the canvas backend.  Text widths are floating-point
    values that depend on the font metrics; the model keeps them abstract:
    a type of numbers with the embedding of the integers, the addition,
    and [ctx.measureText(text).width] under a given [ctx.font]. *)
Class Backend : Type := {
  num : Type;
  ofInt : Z -> num;
  add : num -> num -> num;
  measureText : jsstring -> jsstring -> num
}.

(** The code unit of the arrow glyph. *)
Definition ARROW : N := 8594%N.

(** The code unit of the space. *)
Definition SPACE : N := 32%N.

Section Drawing.
Context {B : Backend}.

(** What a drawing call puts on the canvas, with the fill style and the
    font that were current at the call. *)
Inductive Op : Type :=
  | FillRect (fillStyle : jsstring) (x y w h : Z)
  | FillText (fillStyle font text : jsstring) (x : num) (y : Z).

(** The 2D context: its current fill style and font, and the drawing
    calls made so far. *)
Record Context2D : Type := {
  fillStyle : jsstring;
  font : jsstring;
  ops : list Op
}.

Definition newContext : Context2D :=
  {| fillStyle := lit "#000000"; font := lit "10px sans-serif"; ops := [] |}.

Definition setFillStyle (ctx : Context2D) (s : jsstring) : Context2D :=
  {| fillStyle := s; font := font ctx; ops := ops ctx |}.

Definition setFont (ctx : Context2D) (f : jsstring) : Context2D :=
  {| fillStyle := fillStyle ctx; font := f; ops := ops ctx |}.

Definition fillRect (ctx : Context2D) (x y w h : Z) : Context2D :=
  {| fillStyle := fillStyle ctx; font := font ctx;
     ops := ops ctx ++ [FillRect (fillStyle ctx) x y w h] |}.

Definition fillText (ctx : Context2D) (text : jsstring) (x : num) (y : Z)
    : Context2D :=
  {| fillStyle := fillStyle ctx; font := font ctx;
     ops := ops ctx ++ [FillText (fillStyle ctx) (font ctx) text x y] |}.

(** The loop over the lines of one page; [i] is the loop counter and
    [pageLines] the lines from index [i] on. *)
Fixpoint drawLines (ctx : Context2D) (pageLines : list jsstring)
    (startLineNum i yPosition lineHeight : Z) : Context2D :=
  match pageLines with
  | [] => ctx
  | line :: rest =>
      let lineNum := startLineNum + i in
      let lineNumStr := padStart (ofZ lineNum) 5 SPACE in
      let ctx := setFillStyle ctx LINE_NUMBER_COLOR in
      let ctx := fillText ctx (lineNumStr ++ [ARROW]) (ofInt PADDING)
                   yPosition in
      let lineColor := getLineColor line in
      let ctx := setFillStyle ctx lineColor in
      let lineNumberWidth :=
        measureText (font ctx) (lineNumStr ++ [ARROW; SPACE]) in
      let ctx := fillText ctx line (add (ofInt PADDING) lineNumberWidth)
                   yPosition in
      drawLines ctx rest startLineNum (i + 1) (yPosition + lineHeight)
        lineHeight
  end.

(** [Math.floor(fontSize * LINE_HEIGHT_MULTIPLIER)] with the multiplier
    1.6, on an integer font size. *)
Definition lineHeightOf (fontSize : Z) : Z := (fontSize * 16) / 10.

(** The font of the page: the size, then [px Monaco, "Courier New",
    monospace] (34 is the code unit of the double quote). *)
Definition pageFont (fontSize : Z) : jsstring :=
  ofZ fontSize ++ lit "px Monaco, " ++ [34%N] ++ lit "Courier New"
  ++ [34%N] ++ lit ", monospace".

(** The body of the page loop of [generateImages] up to the drawing of the
    last line of the page. *)
Definition renderPage (linesPerPage fontSize imageWidth totalPages : Z)
    (pageNum : Z) (pageLines : list jsstring) : Context2D :=
  let lineHeight := lineHeightOf fontSize in
  let imageHeight := PADDING * 2 + lineHeight * (linesPerPage + 2) in
  let currentPage := pageNum + 1 in
  let ctx := newContext in
  let ctx := setFillStyle ctx BG_COLOR in
  let ctx := fillRect ctx 0 0 imageWidth imageHeight in
  let ctx := setFont ctx (pageFont fontSize) in
  let ctx := setFillStyle ctx LINE_NUMBER_COLOR in
  let header :=
    lit "API Documentation - Page " ++ ofZ currentPage ++ lit "/"
    ++ ofZ totalPages in
  let ctx := fillText ctx header (ofInt PADDING) (PADDING + fontSize) in
  let yPosition := PADDING + lineHeight * 2 in
  let startLineNum := Paginator.startLineNum pageNum linesPerPage in
  drawLines ctx pageLines startLineNum 0 yPosition lineHeight.

End Drawing.

(** A backend with integer widths: every code unit is 8 pixels wide. *)
Definition fixedWidthBackend : Backend :=
  {| num := Z; ofInt := fun z => z; add := Z.add;
     measureText := fun _ text => 8 * Z.of_nat (length text) |}.

End Renderer.

(* ================================================================= *)
(** ** Node's [path] functions on POSIX paths *)

Module Path.
Import JSString.

Local Open Scope N_scope.

(** The code unit of [/]. *)
Definition SLASH : N := 47.

(** Normalisation of the segments of an absolute path: empty segments and
    [.] are dropped, [..] removes the segment before it. *)
Definition normalizeSegments (segs : list jsstring) : list jsstring :=
  rev (fold_left
         (fun stack seg =>
            if eqb seg [] || eqb seg (lit ".") then stack
            else if eqb seg (lit "..") then tl stack
            else seg :: stack)
         segs []).

Definition renderAbsolute (segs : list jsstring) : jsstring :=
  lit "/" ++ join (lit "/") segs.

(** [resolve(p)] in the working directory [cwd] (an absolute path). *)
Definition resolve (cwd p : jsstring) : jsstring :=
  let full := if startsWith p (lit "/") then p else cwd ++ lit "/" ++ p in
  renderAbsolute (normalizeSegments (split SLASH full)).

(** [join(dir, name)] for a resolved directory and the name of one of its
    entries (a name has no [/] and is neither [.] nor [..]). *)
Definition joinPath (dir name : jsstring) : jsstring :=
  if eqb dir (lit "/") then lit "/" ++ name else dir ++ lit "/" ++ name.

Fixpoint stripCommon (a b : list jsstring)
    : list jsstring * list jsstring :=
  match a, b with
  | x :: a', y :: b' => if eqb x y then stripCommon a' b' else (a, b)
  | _, _ => (a, b)
  end.

(** [relative(from, to)] for two absolute paths: one [..] for every
    segment of [from] below the common ancestor, then the segments of
    [to] below it. *)
Definition relative (from to : jsstring) : jsstring :=
  let '(up, down) :=
    stripCommon (normalizeSegments (split SLASH from))
                (normalizeSegments (split SLASH to)) in
  join (lit "/") (map (fun _ => lit "..") up ++ down).

End Path.

(* ================================================================= *)
(** ** index.ts: the convert pipeline *)

Module Convert.
Import JSString Generator Renderer.

(** The code unit of the line feed. *)
Definition LF : N := 10%N.

(** [const lines = content.split('\n')]. *)
Definition linesOf (content : jsstring) : list jsstring :=
  JSString.split LF content.

Record Preset : Type := { linesPerPage : Z; fontSize : Z }.

Definition HIGH : Preset := {| linesPerPage := 100; fontSize := 12 |}.
Definition MEDIUM : Preset := {| linesPerPage := 80; fontSize := 14 |}.
Definition LOW : Preset := {| linesPerPage := 60; fontSize := 16 |}.

(** [densityPresets[density] || densityPresets.medium] for a lower-cased
    density name. *)
Definition presetOf (density : jsstring) : Preset :=
  if eqb density (lit "high") then HIGH
  else if eqb density (lit "low") then LOW
  else MEDIUM.

(** [options.lines ? parseInt(options.lines) : preset.linesPerPage], with
    the integer read by [parseInt] when the option is given. *)
Definition linesPerPageOf (density : jsstring) (lines : option Z) : Z :=
  match lines with
  | Some n => n
  | None => linesPerPage (presetOf density)
  end.

Section Images.
Context {B : Backend}.

(** [generateImages] of [generator.ts]: the files written, in order, each
    with its path and the drawing calls of its canvas.  [None] stands for a run whose
    pagination loop has not ended within [fuel] iterations. *)
Definition generateImages (fuel : nat) (lines : list jsstring)
    (outputDir : jsstring) (linesPerPage fontSize imageWidth : Z)
    : option (list (jsstring * list Op)) :=
  let totalPages := Paginator.totalPages lines linesPerPage in
  match Paginator.paginate fuel lines linesPerPage with
  | None => None
  | Some pages =>
      Some (map (fun '(pageNum, pageLines) =>
                   (Path.joinPath outputDir (FileNamer.fileName pageNum),
                    ops (renderPage linesPerPage fontSize imageWidth
                           totalPages (Z.of_nat pageNum) pageLines)))
                (combine (seq 0 (length pages)) pages))
  end.

(** The convert action on the content of one file. *)
Definition convert (fuel : nat) (content outputDir : jsstring)
    (linesPerPage fontSize imageWidth : Z)
    : option (list (jsstring * list Op)) :=
  generateImages fuel (linesOf content) outputDir linesPerPage fontSize
    imageWidth.

End Images.

End Convert.

(* ================================================================= *)
(** ** The [docload] wrapper script *)

Module Docload.
Import JSString Path.

(** The file-system calls of the script.  [readdirSync] lists the names of
    all entries of a directory, whatever their kind, or throws (the
    message of the exception is the left alternative). *)
Record FileSystem : Type := {
  existsSync : jsstring -> bool;
  isDirectory : jsstring -> bool;
  readdirSync : jsstring -> jsstring + list jsstring
}.

(** How the script ends: [process.exit(code)] after the lines written to
    the error stream, or the hand-over to [spawn(command, args)], whose
    exit code is forwarded. *)
Inductive Outcome : Type :=
  | Exit (code : Z) (stderr : list jsstring)
  | Spawn (command : jsstring) (args : list jsstring).

(** The validation failures of the script. *)
Inductive Failure : Type :=
  | ImagesFlagNeedsValue
  | DirectoryNotFound (dir : jsstring)
  | NotADirectory (dir : jsstring)
  | ReadError (message : jsstring)
  | NoImagesFound (dir : jsstring).

(** The code unit of the cross mark that starts every error line. *)
Definition CROSS : N := 10060.

(** The [console.error] lines of each failure. *)
Definition errorLines (f : Failure) : list jsstring :=
  match f with
  | ImagesFlagNeedsValue =>
      [CROSS :: lit " Error: --images flag requires a directory path"]
  | DirectoryNotFound dir =>
      [CROSS :: lit " Error: Directory not found: " ++ dir]
  | NotADirectory dir =>
      [CROSS :: lit " Error: Path is not a directory: " ++ dir]
  | ReadError message =>
      [CROSS :: lit " Error reading directory: " ++ message]
  | NoImagesFound dir =>
      [CROSS :: lit " Error: No PNG files found in directory: " ++ dir;
       lit "   Make sure you've run 'docshot convert' first to generate images."]
  end.

Definition helpFlags : list jsstring := [lit "--help"; lit "-h"].

(** [args.some(arg => helpFlags.includes(arg))]. *)
Definition hasHelpFlag (args : list jsstring) : bool :=
  existsb (fun arg => existsb (eqb arg) helpFlags) args.

(** [arg === '--images' || arg === '-i']. *)
Definition isImagesFlag (arg : jsstring) : bool :=
  eqb arg (lit "--images") || eqb arg (lit "-i").

(** [arr.findIndex(p)]: the index of the first element that satisfies
    [p], or [-1]. *)
Fixpoint findIndex {A : Type} (p : A -> bool) (l : list A) : Z :=
  match l with
  | [] => -1
  | x :: r =>
      if p x then 0
      else let i := findIndex p r in if i =? -1 then -1 else i + 1
  end%Z.

(** The directory named by the arguments: the value after the first
    [--images]/[-i], or [docshot]. *)
Definition imagesDirOf (args : list jsstring) : Failure + jsstring :=
  let imagesIndex := findIndex isImagesFlag args in
  if negb (imagesIndex =? -1)%Z then
    if (imagesIndex + 1 <? Z.of_nat (length args))%Z
    then inr (nth (Z.to_nat (imagesIndex + 1)) args [])
    else inl ImagesFlagNeedsValue
  else inr (lit "docshot").

(** [file => file.toLowerCase().endsWith('.png')]. *)
Definition isPng (file : jsstring) : bool :=
  endsWith (toLowerCase file) (lit ".png").

(** [file => `@${relative(cwd, file)}`]. *)
Definition reference (cwd file : jsstring) : jsstring :=
  lit "@" ++ relative cwd file.

(** The image reference builder: validation of the resolved directory,
    discovery of the PNG files and construction of [systemPrompt]. *)
Definition buildReference (fs : FileSystem) (cwd imageDirPath : jsstring)
    : Failure + jsstring :=
  if negb (existsSync fs imageDirPath) then
    inl (DirectoryNotFound imageDirPath)
  else if negb (isDirectory fs imageDirPath) then
    inl (NotADirectory imageDirPath)
  else
    match readdirSync fs imageDirPath with
    | inl message => inl (ReadError message)
    | inr files =>
        let pngFiles :=
          sort (map (fun file => joinPath imageDirPath file)
                    (filter isPng files)) in
        if (length pngFiles =? 0)%nat then
          inl (NoImagesFound imageDirPath)
        else
          let relativePaths := map (reference cwd) pngFiles in
          inr (join (lit " ") relativePaths)
    end.

(** The arguments handed to the chat process. *)
Definition claudeArgs (args : list jsstring) (systemPrompt : jsstring)
    : list jsstring :=
  let imagesIndex := findIndex isImagesFlag args in
  (if negb (imagesIndex =? -1)%Z
   then slice args 0 imagesIndex
        ++ slice args (imagesIndex + 2)%Z (Z.of_nat (length args))
   else args)
  ++ [lit "--append-system-prompt"; systemPrompt].

(** The whole script, started with [args] in the directory [cwd]. *)
Definition docload (fs : FileSystem) (cwd : jsstring)
    (args : list jsstring) : Outcome :=
  if hasHelpFlag args then Spawn (lit "claude") args
  else
    match imagesDirOf args with
    | inl f => Exit 1 (errorLines f)
    | inr imagesDir =>
        match buildReference fs cwd (resolve cwd imagesDir) with
        | inl f => Exit 1 (errorLines f)
        | inr systemPrompt =>
            Spawn (lit "claude") (claudeArgs args systemPrompt)
        end
    end.

End Docload.

(* ================================================================= *)
(** ** Notions used to state the properties *)

Section Notions.
Import JSString Generator Path Docload.

(** The number of pages, as a natural number. *)
Definition page_count (lines : list jsstring) (L : Z) : nat :=
  Z.to_nat (Paginator.totalPages lines L).

(** The slice pushed by the iteration with ordinal [k] of the pagination
    loop. *)
Definition page_at (lines : list jsstring) (linesPerPage : Z) (k : nat)
    : list jsstring :=
  slice lines (Z.of_nat k * linesPerPage)
        (Z.of_nat k * linesPerPage + linesPerPage).

(** [t] starts with [p]. *)
Definition hasPrefix (p t : jsstring) : Prop := exists rest, t = p ++ rest.

(** [kw] is a whole-word prefix of [t]: [t] starts with [kw] and the
    keyword is not continued by a word character. *)
Definition wholeWordPrefix (kw t : jsstring) : Prop :=
  exists rest,
    t = kw ++ rest
    /\ match rest with [] => True | c :: _ => isWordChar c = false end.

(** The colour categories of the specification and their colours. *)
Inductive ColorCategory : Type := comment | keyword | default.

Definition categoryColor (c : ColorCategory) : jsstring :=
  match c with
  | comment => COMMENT_COLOR
  | keyword => KEYWORD_COLOR
  | default => TEXT_COLOR
  end.

(** Rule 1 of the classifier applies to the trimmed line [t]. *)
Definition commentLine (t : jsstring) : Prop :=
  hasPrefix (lit "#") t \/ hasPrefix (lit "//") t.

(** Rule 2 of the classifier applies to the trimmed line [t]. *)
Definition keywordLine (t : jsstring) : Prop :=
  exists kw, In kw KEYWORDS /\ wholeWordPrefix kw t.

(** Adjacent elements are in order. *)
Fixpoint sortedb (l : list jsstring) : bool :=
  match l with
  | x :: (y :: _) as r => leb x y && sortedb r
  | _ => true
  end.

(** Reading a decimal numeral back, most significant digit first. *)
Definition readDigits (acc : nat) (s : jsstring) : nat :=
  fold_left (fun a c => (10 * a + N.to_nat (c - 48))%nat) s acc.

(** The code unit of the decimal digit [n mod 10]. *)
Definition digitUnit (n : nat) : N := (48 + N.of_nat (n mod 10))%N.

(** The name of page [k] written with exactly three digits. *)
Definition threeDigitName (k : nat) : jsstring :=
  lit "page_"
  ++ [digitUnit (S k / 100); digitUnit (S k / 10); digitUnit (S k)]
  ++ lit ".png".

(** A file name that ends in [.png], whatever the case of the letters. *)
Definition isPngName (name : jsstring) : Prop :=
  exists stem a b c,
    name = stem ++ [46; a; b; c]%N
    /\ (a = 112 \/ a = 80)%N /\ (b = 110 \/ b = 78)%N
    /\ (c = 103 \/ c = 71)%N.

(** The argument list without the first [--images]/[-i] flag and the
    value that follows it. *)
Fixpoint withoutImagesFlag (args : list jsstring) : list jsstring :=
  match args with
  | [] => []
  | a :: r =>
      if Docload.isImagesFlag a then tl r else a :: withoutImagesFlag r
  end.

(** The forwarding rule read without exception: whenever the script hands
    over to the chat process, the arguments are those of the script
    without the first images flag and its value, followed by
    [--append-system-prompt] and a reference string. *)
Definition forwardsWithPrompt (fs : Docload.FileSystem) (cwd : jsstring)
    (args : list jsstring) : Prop :=
  forall command cargs,
    Docload.docload fs cwd args = Docload.Spawn command cargs ->
    exists systemPrompt,
      cargs = withoutImagesFlag args
              ++ [lit "--append-system-prompt"; systemPrompt].

(** A file system with no entry at all. *)
Definition emptyFS : Docload.FileSystem :=
  {| Docload.existsSync := fun _ => false;
     Docload.isDirectory := fun _ => false;
     Docload.readdirSync := fun _ => inl (lit "ENOENT") |}.

(** A file system whose only directory is [/work/docshot], listed as
    [entries]. *)
Definition oneDirFS (entries : list jsstring) : Docload.FileSystem :=
  {| Docload.existsSync := fun p => JSString.eqb p (lit "/work/docshot");
     Docload.isDirectory := fun p => JSString.eqb p (lit "/work/docshot");
     Docload.readdirSync := fun p =>
       if JSString.eqb p (lit "/work/docshot") then inr entries
       else inl (lit "ENOENT") |}.

(** The common prefix that [joinPath] puts before an entry name. *)
Definition dirPrefix (dir : jsstring) : jsstring :=
  if eqb dir (lit "/") then lit "/" else dir ++ lit "/".

(** The two file names of the example of the specification. *)
Definition PAGE_001 : jsstring := lit "page_001.png".
Definition PAGE_002 : jsstring := lit "page_002.png".

End Notions.

Section DrawingNotions.
Import JSString Generator Renderer.
Context {B : Backend}.

(** The two drawing calls of the line with number [lineNum]. *)
Definition lineOps (fnt : jsstring) (lineNum y : Z) (line : jsstring)
    : list Op :=
  [FillText LINE_NUMBER_COLOR fnt
     (padStart (ofZ lineNum) 5 SPACE ++ [ARROW]) (ofInt PADDING) y;
   FillText (getLineColor line) fnt line
     (add (ofInt PADDING)
          (measureText fnt (padStart (ofZ lineNum) 5 SPACE
                            ++ [ARROW; SPACE])))
     y].

(** The drawing calls of the lines of a page, line after line. *)
Fixpoint linesOps (fnt : jsstring) (pageLines : list jsstring)
    (lineNum y lineHeight : Z) : list Op :=
  match pageLines with
  | [] => []
  | line :: rest =>
      lineOps fnt lineNum y line
      ++ linesOps fnt rest (lineNum + 1) (y + lineHeight) lineHeight
  end.

(** The drawing calls made for the line at index [k] of a page: the two
    calls that follow the background and the header and the calls of the
    [k] lines before it. *)
Definition lineCalls (ctx : Context2D) (k : nat) : list Op :=
  firstn 2 (skipn (2 * k) (skipn 2 (ops ctx))).

End DrawingNotions.

(** The two calls [calls] draw [prefix] in the muted colour and then the
    text [line] on the same base line, at the position of the prefix plus
    the measured width of [prefix]. *)
Definition drawnWithPrefix {B : Renderer.Backend}
    (calls : list Renderer.Op) (prefix line : jsstring) : Prop :=
  exists fnt style x y,
    calls
    = [Renderer.FillText Generator.LINE_NUMBER_COLOR fnt prefix x y;
       Renderer.FillText style fnt line
         (Renderer.add x (Renderer.measureText fnt prefix)) y].

(** The prefix of a line as the specification words it: the line number
    padded on the right to five characters, then the arrow. *)
Definition rightPaddedPrefix (lineNum : Z) : jsstring :=
  JSString.padEnd (JSString.ofZ lineNum) 5 Renderer.SPACE
  ++ [Renderer.ARROW].

(** The prefix with the line number padded on the left instead. *)
Definition leftPaddedPrefix (lineNum : Z) : jsstring :=
  JSString.padStart (JSString.ofZ lineNum) 5 Renderer.SPACE
  ++ [Renderer.ARROW].

(* ================================================================= *)
(** ** index.ts with glob support: directory names *)

Module Index.
Import JSString Path.

Local Open Scope N_scope.

(** [basename(path, ext)] for a path that does not end with a slash: the
    last segment, without the suffix [ext] when the segment ends with it
    and is longer than it. *)
Definition basename (path ext : jsstring) : jsstring :=
  let name := last (split SLASH path) [] in
  if negb (length ext =? 0)%nat && endsWith name ext && negb (eqb name ext)
  then firstn (length name - length ext) name
  else name.

(** The code units of the class [[a-zA-Z0-9-_]]. *)
Definition isSafeUnit (c : N) : bool :=
  ((97 <=? c) && (c <=? 122)) || ((65 <=? c) && (c <=? 90))
  || ((48 <=? c) && (c <=? 57)) || (c =? 45) || (c =? 95).

(** [function fileToDirectoryName(filePath)]:
    [basename(filePath, '.md').replace(/[^a-zA-Z0-9-_]/g, '_')]; every
    code unit outside the class becomes an underscore (95). *)
Definition fileToDirectoryName (filePath : jsstring) : jsstring :=
  map (fun c => if isSafeUnit c then c else 95)
      (basename filePath (lit ".md")).

(** The output directory of [processFile]:
    [options.isMultiFile ? join(outputBaseDir, fileToDirectoryName(filePath))
     : outputBaseDir]. *)
Definition outputDirOf (isMultiFile : bool)
    (outputBaseDir filePath : jsstring) : jsstring :=
  if isMultiFile
  then joinPath outputBaseDir (fileToDirectoryName filePath)
  else outputBaseDir.

End Index.

(* ================================================================= *)
(** ** tests/helpers.ts: line counting and test content *)

Module Helpers.
Import JSString.

(** [function countLines(content)]: [content.split('\n').length]. *)
Definition countLines (content : jsstring) : nat :=
  length (split Convert.LF content).

(** The strings pushed by the iteration [i] of the loop of
    [generateTestContent]; 96 is the code unit of the backquote. *)
Definition testContentStep (i : nat) : list jsstring :=
  let lineNum := (i + 1)%nat in
  if (lineNum mod 20 =? 0)%nat then
    [lit "## Section " ++ ofNat (lineNum / 20); []]
  else if (lineNum mod 15 =? 0)%nat then
    [[96; 96; 96]%N ++ lit "typescript";
     lit "const example" ++ ofNat lineNum ++ lit " = " ++ [34%N]
       ++ lit "test" ++ [34%N] ++ lit ";";
     [96; 96; 96]%N;
     []]
  else if (lineNum mod 10 =? 0)%nat then
    [lit "// Comment at line " ++ ofNat lineNum]
  else
    [lit "Line " ++ ofNat lineNum
     ++ lit ": This is test content for testing the docshot converter."].

(** [function generateTestContent(lines)] for an integer [lines]: the
    four opening lines, the lines of the iterations [0 <= i < lines - 10],
    empty lines up to [lines] elements, and the first [lines] elements
    joined by line feeds. *)
Definition generateTestContent (lines : Z) : jsstring :=
  let content :=
    [lit "# Test Documentation"; [];
     lit "This is a test document for integration testing."; []]
    ++ flat_map testContentStep (seq 0 (Z.to_nat (lines - 10))) in
  let content :=
    content ++ repeat [] (Z.to_nat (lines - Z.of_nat (length content))) in
  join [Convert.LF] (slice content 0 lines).

End Helpers.

(* ================================================================= *)
(** ** Further notions *)

Section ImageNotions.
Import JSString Generator Renderer.
Context {B : Backend}.

(** The texts of the drawing calls of the lines of a page, as pairs of
    the line-number prefix and the text of the line. *)
Fixpoint callPairs (calls : list Op) : list (jsstring * jsstring) :=
  match calls with
  | FillText _ _ prefix _ _ :: FillText _ _ text _ _ :: rest =>
      (prefix, text) :: callPairs rest
  | _ => []
  end.

(** The lines drawn on the images, image after image: the calls of each
    image after its background and header. *)
Definition linesDrawn (files : list (jsstring * list Op))
    : list (jsstring * jsstring) :=
  flat_map (fun file => callPairs (skipn 2 (snd file))) files.

(** The base line of a text call lies between [lo] and [hi]. *)
Definition baseLineWithin (lo hi : Z) (op : Op) : Prop :=
  match op with
  | FillRect _ _ _ _ _ => True
  | FillText _ _ _ _ y => lo <= y <= hi
  end.

(** The image of page [k]: its path and its drawing calls. *)
Definition imageOf (lines : list jsstring) (outputDir : jsstring)
    (L fontSize imageWidth : Z) (k : nat) : jsstring * list Op :=
  (Path.joinPath outputDir (FileNamer.fileName k),
   ops (renderPage L fontSize imageWidth (Paginator.totalPages lines L)
          (Z.of_nat k) (page_at lines L k))).

End ImageNotions.

(** The lines [ls] with their prefixes, numbered from [start]. *)
Fixpoint numbered (start : Z) (ls : list jsstring)
    : list (jsstring * jsstring) :=
  match ls with
  | [] => []
  | l :: rest => (leftPaddedPrefix start, l) :: numbered (start + 1) rest
  end.

(** All the code units of [s] are white space. *)
Definition blank (s : jsstring) : Prop :=
  Forall (fun c => JSString.isWhiteSpace c = true) s.

(** The number of line feeds of a content. *)
Definition lineFeeds (content : jsstring) : nat :=
  length (filter (N.eqb Convert.LF) content).

(** A line has no line feed. *)
Definition singleLine (l : jsstring) : Prop := ~ In Convert.LF l.

(* ================================================================= *)
(** ** Facts about the paginator *)

Section PaginatorFacts.
Import Paginator.

Lemma ceil_div_pos_spec (a b : Z) :
  0 < b -> ceil_div a b = (a + b - 1) / b.
Proof.
  intros Hb. unfold ceil_div.
  pose proof (Z.div_mod (- a) b ltac:(lia)) as E1.
  pose proof (Z.mod_pos_bound (- a) b Hb) as B1.
  apply Z.div_unique with (r := b - 1 - (- a) mod b); lia.
Qed.

Lemma ceil_div_bounds (a b : Z) :
  0 < b -> b * (ceil_div a b - 1) < a <= b * ceil_div a b.
Proof.
  intros Hb. unfold ceil_div.
  pose proof (Z.div_mod (- a) b ltac:(lia)) as E1.
  pose proof (Z.mod_pos_bound (- a) b Hb) as B1.
  nia.
Qed.

Lemma slice_nonneg {A : Type} (l : list A) (s e : Z) :
  0 <= s -> 0 <= e ->
  slice l s e = firstn (Z.to_nat (e - s)) (skipn (Z.to_nat s) l).
Proof.
  intros Hs He. unfold slice.
  destruct (Z.ltb_spec s 0) as [?|_]; [lia|].
  destruct (Z.ltb_spec e 0) as [?|_]; [lia|].
  set (len := Z.of_nat (length l)).
  destruct (Z.le_gt_cases len s) as [Hls|Hls].
  - rewrite (Z.min_r s len) by lia.
    rewrite !skipn_all2 by lia. now rewrite !firstn_nil.
  - rewrite (Z.min_l s len) by lia.
    destruct (Z.le_gt_cases e len) as [Hel|Hel].
    + now rewrite (Z.min_l e len) by lia.
    + rewrite (Z.min_r e len) by lia.
      rewrite !firstn_all2; try reflexivity; rewrite length_skipn; lia.
Qed.

Lemma page_at_firstn_skipn (lines : list jsstring) (L : Z) (k : nat) :
  0 < L ->
  page_at lines L k
  = firstn (Z.to_nat L) (skipn (k * Z.to_nat L) lines).
Proof.
  intros HL. unfold page_at. rewrite slice_nonneg by nia.
  f_equal; [f_equal; lia|]. f_equal. nia.
Qed.

(** Chunks on natural numbers: the [k]-th block of [n] elements. *)
Lemma concat_chunks {A : Type} (l : list A) (n m k : nat) :
  concat (map (fun j => firstn n (skipn (j * n) l)) (seq k m))
  = firstn (m * n) (skipn (k * n) l).
Proof.
  revert k. induction m as [|m IH]; intros k; simpl.
  - reflexivity.
  - rewrite IH.
    replace (S k * n)%nat with (n + k * n)%nat by lia.
    rewrite <- skipn_skipn.
    set (r := skipn (k * n) l).
    rewrite <- (firstn_skipn n (firstn (n + m * n) r)) at 1.
    rewrite firstn_firstn, Nat.min_l by lia.
    now rewrite skipn_firstn_comm, Nat.add_comm, Nat.add_sub.
Qed.

Lemma split_at_chunk {A : Type} (l : list A) (n k : nat) :
  (k * n <= length l)%nat ->
  l = firstn (k * n) l ++ firstn n (skipn (k * n) l)
        ++ skipn n (skipn (k * n) l)
  /\ length (firstn (k * n) l) = (k * n)%nat.
Proof.
  intros Hk. split.
  - now rewrite (firstn_skipn n), (firstn_skipn (k * n)).
  - rewrite length_firstn. lia.
Qed.

Lemma page_count_bounds (lines : list jsstring) (L : Z) :
  0 < L ->
  totalPages lines L = Z.of_nat (page_count lines L)
  /\ L * (Z.of_nat (page_count lines L) - 1)
       < Z.of_nat (length lines)
       <= L * Z.of_nat (page_count lines L)
  /\ Z.of_nat (page_count lines L) <= Z.of_nat (length lines).
Proof.
  intros HL. unfold page_count, totalPages.
  set (N := Z.of_nat (length lines)).
  pose proof (ceil_div_bounds N L HL) as B.
  assert (0 <= N) by (subst N; lia).
  assert (0 <= ceil_div N L) by nia.
  rewrite Z2Nat.id by lia. repeat split; try lia. nia.
Qed.

(** The loop invariant: started at [i = k * L] with [r] pages still to
    push and more than [r] iterations of fuel, the loop returns the pages
    pushed so far followed by pages [k], ..., [k + r - 1]. *)
Lemma paginate_loop_spec (lines : list jsstring) (L : Z) :
  0 < L ->
  forall (r k fuel : nat) (pages : list (list jsstring)),
    (k + r = page_count lines L)%nat -> (r < fuel)%nat ->
    paginate_loop fuel lines L (Z.of_nat k * L) pages
    = Some (pages ++ map (page_at lines L) (seq k r)).
Proof.
  intros HL.
  destruct (page_count_bounds lines L HL) as (_ & HB & _).
  induction r as [|r IH]; intros k fuel pages Hk Hf.
  - destruct fuel as [|fuel]; [lia|]. simpl.
    destruct (Z.ltb_spec (Z.of_nat k * L) (Z.of_nat (length lines)));
      [nia|]. now rewrite app_nil_r.
  - destruct fuel as [|fuel]; [lia|]. simpl.
    destruct (Z.ltb_spec (Z.of_nat k * L) (Z.of_nat (length lines)));
      [|nia].
    replace (Z.of_nat k * L + L) with (Z.of_nat (S k) * L)
      by (rewrite Nat2Z.inj_succ; ring).
    rewrite IH by lia. rewrite <- app_assoc. cbn [seq map app].
    do 3 f_equal. unfold page_at. f_equal.
    rewrite Nat2Z.inj_succ; ring.
Qed.

(** With a positive page size the paginator terminates within
    [length lines + 1] iterations and returns pages [0], ..., [P - 1]. *)
Lemma paginate_pages (lines : list jsstring) (L : Z) (fuel : nat) :
  0 < L -> (length lines < fuel)%nat ->
  paginate fuel lines L
  = Some (map (page_at lines L) (seq 0 (page_count lines L))).
Proof.
  intros HL Hf. unfold paginate.
  destruct (page_count_bounds lines L HL) as (_ & _ & HP).
  change 0 with (Z.of_nat 0 * L).
  rewrite (paginate_loop_spec lines L HL (page_count lines L) 0 fuel [])
    by lia.
  reflexivity.
Qed.

Lemma nth_pages (lines : list jsstring) (L : Z) (k : nat) :
  (k < page_count lines L)%nat ->
  nth k (map (page_at lines L) (seq 0 (page_count lines L))) []
  = page_at lines L k.
Proof.
  intros Hk.
  rewrite (nth_indep _ [] (page_at lines L 0))
    by now rewrite length_map, length_seq.
  rewrite map_nth, seq_nth by lia. reflexivity.
Qed.

Lemma length_page_at (lines : list jsstring) (L : Z) (k : nat) :
  0 < L ->
  length (page_at lines L k)
  = Nat.min (Z.to_nat L) (length lines - k * Z.to_nat L).
Proof.
  intros HL. rewrite page_at_firstn_skipn by assumption.
  now rewrite length_firstn, length_skipn.
Qed.

End PaginatorFacts.

(** [C1] For a document of [N] lines and a page size [L > 0] the paginator
    terminates (any fuel above [N] is enough) and produces
    [ceil(N / L)] pages, the least number [P] of pages with [N <= L * P];
    page [k] is the contiguous block of the document
    that starts right after its first [k * L] lines, that is at the
    1-based line [k * L + 1 = startLineNum k L]; and the concatenation of
    the pages in index order is the document itself, so that no line is
    duplicated or dropped. *)
Theorem C1_paginator_partition (lines : list jsstring) (L : Z) :
  0 < L ->
  exists pages : list (list jsstring),
    (forall fuel, (length lines < fuel)%nat ->
       Paginator.paginate fuel lines L = Some pages)
    /\ Z.of_nat (length pages)
       = Paginator.ceil_div (Z.of_nat (length lines)) L
    /\ Z.of_nat (length pages) = Paginator.totalPages lines L
    /\ L * (Z.of_nat (length pages) - 1)
         < Z.of_nat (length lines)
         <= L * Z.of_nat (length pages)
    /\ (forall k, (k < length pages)%nat ->
          exists before after,
            lines = before ++ nth k pages [] ++ after
            /\ Z.of_nat (length before) = Z.of_nat k * L
            /\ Paginator.startLineNum (Z.of_nat k) L
               = Z.of_nat (length before) + 1)
    /\ concat pages = lines.
Proof.
  intros HL.
  destruct (page_count_bounds lines L HL) as (HT & HB & HP).
  exists (map (page_at lines L) (seq 0 (page_count lines L))).
  rewrite length_map, length_seq.
  split; [|split; [|split; [|split; [|split]]]].
  - intros fuel Hf. now apply paginate_pages.
  - symmetry. exact HT.
  - symmetry. exact HT.
  - exact HB.
  - intros k Hk. rewrite nth_pages by assumption.
    rewrite page_at_firstn_skipn by assumption.
    assert (Hle : (k * Z.to_nat L <= length lines)%nat) by nia.
    destruct (split_at_chunk lines (Z.to_nat L) k Hle) as [E1 E2].
    exists (firstn (k * Z.to_nat L) lines),
           (skipn (Z.to_nat L) (skipn (k * Z.to_nat L) lines)).
    split; [exact E1|]. rewrite E2. unfold Paginator.startLineNum.
    split; nia.
  - rewrite (map_ext _ (fun j => firstn (Z.to_nat L)
                                   (skipn (j * Z.to_nat L) lines)))
      by (intros j; now apply page_at_firstn_skipn).
    rewrite concat_chunks. simpl. apply firstn_all2. nia.
Qed.

Lemma C1_paginator_partition_witness :
  exists pages : list (list jsstring),
    (forall fuel, (3 < fuel)%nat ->
       Paginator.paginate fuel [lit "a"; lit "b"; lit "c"] 2 = Some pages)
    /\ Z.of_nat (length pages) = 2
    /\ concat pages = [lit "a"; lit "b"; lit "c"].
Proof.
  destruct (C1_paginator_partition [lit "a"; lit "b"; lit "c"] 2
              ltac:(lia)) as (pages & Hrun & Hlen & _ & _ & _ & Hcat).
  exists pages. split; [exact Hrun|]. split; [exact Hlen|exact Hcat].
Defined.

(** [C2] For a page size [L >= 1], every page but the last has exactly [L]
    lines, and the last page, when there is one, has between 1 and [L]
    lines. *)
Theorem C2_page_sizes (lines : list jsstring) (L : Z) :
  1 <= L ->
  exists pages : list (list jsstring),
    (forall fuel, (length lines < fuel)%nat ->
       Paginator.paginate fuel lines L = Some pages)
    /\ (forall k, (S k < length pages)%nat ->
          Z.of_nat (length (nth k pages [])) = L)
    /\ (pages <> [] ->
          1 <= Z.of_nat (length (last pages [])) <= L).
Proof.
  intros HL1. assert (HL : 0 < L) by lia.
  destruct (page_count_bounds lines L HL) as (HT & HB & HP).
  exists (map (page_at lines L) (seq 0 (page_count lines L))).
  split; [|split].
  - intros fuel Hf. now apply paginate_pages.
  - rewrite length_map, length_seq. intros k Hk.
    rewrite nth_pages by lia. rewrite length_page_at by assumption. nia.
  - intros Hne.
    destruct (page_count lines L) as [|n] eqn:En; [now elim Hne|].
    rewrite seq_S, map_app. cbn [map Nat.add]. rewrite last_last.
    rewrite length_page_at by assumption. nia.
Qed.

Lemma C2_page_sizes_witness :
  exists pages : list (list jsstring),
    (forall fuel, (3 < fuel)%nat ->
       Paginator.paginate fuel [lit "a"; lit "b"; lit "c"] 2 = Some pages)
    /\ (forall k, (S k < length pages)%nat ->
          Z.of_nat (length (nth k pages [])) = 2)
    /\ (pages <> [] -> 1 <= Z.of_nat (length (last pages [])) <= 2).
Proof.
  exact (C2_page_sizes [lit "a"; lit "b"; lit "c"] 2 ltac:(lia)).
Defined.

(** The page counts of the examples of the specification, for documents
    of 80, 81, 160 and 161 lines and 80 lines per page. *)
Example page_counts_for_80_lines_per_page :
  map (fun n => Paginator.totalPages (repeat [] n) 80)
      [80; 81; 160; 161]%nat
  = [1; 2; 2; 3].
Proof. reflexivity. Qed.

Example paginate_81_lines_by_80 :
  option_map (map (@length jsstring))
    (Paginator.paginate 82 (repeat [] 81) 80)
  = Some [80; 1]%nat.
Proof. vm_compute. reflexivity. Qed.

(** With a page size that is not positive the loop never ends on a
    document that has a line: no amount of fuel gives a result. *)
Lemma paginate_loop_stuck (lines : list jsstring) (L : Z) :
  L <= 0 -> lines <> [] ->
  forall fuel i pages,
    i <= 0 -> Paginator.paginate_loop fuel lines L i pages = None.
Proof.
  intros HL Hne. induction fuel as [|fuel IH]; intros i pages Hi;
    [reflexivity|]. cbn [Paginator.paginate_loop].
  destruct (Z.ltb_spec i (Z.of_nat (length lines))) as [_|Hge].
  - apply IH. lia.
  - destruct lines; [now elim Hne|]. cbn [length] in Hge. lia.
Qed.

Lemma paginate_diverges (lines : list jsstring) (L : Z) (fuel : nat) :
  L <= 0 -> lines <> [] -> Paginator.paginate fuel lines L = None.
Proof.
  intros HL Hne. unfold Paginator.paginate.
  apply paginate_loop_stuck; [exact HL|exact Hne|lia].
Qed.

(* ================================================================= *)
(** ** Facts about the string operations *)

Section JSStringFacts.
Import JSString.

Lemma startsWith_spec (s p : jsstring) :
  startsWith s p = true <-> hasPrefix p s.
Proof.
  unfold hasPrefix. revert s. induction p as [|a p IH]; intros s; simpl.
  - split; [intros _; now exists s | reflexivity].
  - destruct s as [|b s].
    + split; [discriminate | intros [rest H]; discriminate].
    + rewrite andb_true_iff, N.eqb_eq, IH. split.
      * intros [-> [rest ->]]. now exists rest.
      * intros [rest H]. injection H as -> ->. split; [reflexivity|].
        now exists rest.
Qed.

Lemma eqb_spec (s t : jsstring) : eqb s t = true <-> s = t.
Proof.
  revert t. induction s as [|a s IH]; intros [|b t]; simpl;
    try (split; [discriminate | discriminate]); [tauto|].
  rewrite andb_true_iff, N.eqb_eq, IH. split.
  - now intros [-> ->].
  - intros H. now injection H.
Qed.

Lemma wordCharAt_app_l (s r : jsstring) (q : nat) :
  (q < length s)%nat -> wordCharAt (s ++ r) q = wordCharAt s q.
Proof.
  intros Hq. unfold wordCharAt. now rewrite nth_error_app1.
Qed.

Lemma wordCharAt_app_r (s r : jsstring) :
  wordCharAt (s ++ r) (length s)
  = match r with [] => false | c :: _ => isWordChar c end.
Proof.
  unfold wordCharAt. rewrite nth_error_app2, Nat.sub_diag by lia.
  now destruct r.
Qed.

End JSStringFacts.

(* ================================================================= *)
(** ** Facts about the line classifier *)

Section ClassifierFacts.
Import JSString Generator.

Lemma keywords_end_in_word_char (kw : jsstring) :
  In kw KEYWORDS ->
  exists q, length kw = S q /\ wordCharAt kw q = true.
Proof.
  intros Hin.
  assert (H : forallb (fun k => match length k with
                                | O => false
                                | S q => wordCharAt k q
                                end) KEYWORDS = true) by reflexivity.
  rewrite forallb_forall in H. specialize (H kw Hin).
  destruct (length kw) as [|q]; [discriminate|]. now exists q.
Qed.

Lemma wordBoundary_after_keyword (kw rest : jsstring) :
  In kw KEYWORDS ->
  wordBoundaryAt (kw ++ rest) (length kw)
  = match rest with [] => true | c :: _ => negb (isWordChar c) end.
Proof.
  intros Hin. destruct (keywords_end_in_word_char kw Hin) as (q & Hq & Hw).
  unfold wordBoundaryAt. rewrite wordCharAt_app_r. rewrite Hq.
  rewrite wordCharAt_app_l by lia. rewrite Hw.
  destruct rest; reflexivity.
Qed.

Lemma keywordRegexTest_spec (t : jsstring) :
  keywordRegexTest t = true <-> keywordLine t.
Proof.
  unfold keywordRegexTest, keywordLine. rewrite existsb_exists.
  split; intros (kw & Hin & H); exists kw; (split; [exact Hin|]).
  - apply andb_true_iff in H as [Hp Hb].
    apply startsWith_spec in Hp as [rest ->].
    rewrite wordBoundary_after_keyword in Hb by assumption.
    exists rest. split; [reflexivity|].
    destruct rest as [|c rest]; [exact I|].
    now apply negb_true_iff.
  - destruct H as (rest & -> & Hr). apply andb_true_iff. split.
    + apply startsWith_spec. now exists rest.
    + rewrite wordBoundary_after_keyword by assumption.
      destruct rest as [|c rest]; [reflexivity|]. now rewrite Hr.
Qed.

Lemma comment_test_spec (t : jsstring) :
  startsWith t (lit "#") || startsWith t (lit "//") = true
  <-> commentLine t.
Proof.
  unfold commentLine. now rewrite orb_true_iff, !startsWith_spec.
Qed.

(** The three category colours are pairwise different, so the colour
    returned by [getLineColor] identifies the category. *)
Lemma categoryColor_injective (c d : ColorCategory) :
  categoryColor c = categoryColor d -> c = d.
Proof.
  destruct c, d; intros H; try reflexivity; discriminate H.
Qed.

End ClassifierFacts.

(** [C3] [getLineColor] is a function of the line's content that applies
    the rules in priority order: a trimmed line that starts with [#] or
    [//] gets the comment colour; otherwise a trimmed line that starts
    with one of the seventeen keywords as a whole word gets the keyword
    colour; otherwise the line gets the default colour. *)
Theorem C3_classifier_rules (line : jsstring) :
  let t := JSString.trim line in
  (commentLine t ->
     Generator.getLineColor line
     = categoryColor comment)
  /\ (~ commentLine t -> keywordLine t ->
        Generator.getLineColor line
        = categoryColor keyword)
  /\ (~ commentLine t -> ~ keywordLine t ->
        Generator.getLineColor line
        = categoryColor default).
Proof.
  intros t. unfold Generator.getLineColor, Generator.getLineBranch.
  fold t.
  destruct (JSString.startsWith t (lit "#")
            || JSString.startsWith t (lit "//")) eqn:Ec.
  - apply comment_test_spec in Ec.
    split; [reflexivity|]. split; intros Hn; now elim Hn.
  - assert (Hnc : ~ commentLine t).
    { intros Hc. apply comment_test_spec in Hc. congruence. }
    apply orb_false_iff in Ec as [Eh _]. rewrite Eh.
    split; [intros Hc; now elim Hnc|].
    destruct (Generator.keywordRegexTest t) eqn:Ek.
    + apply keywordRegexTest_spec in Ek.
      split; [reflexivity|]. intros _ Hnk. now elim Hnk.
    + split; [|reflexivity]. intros _ Hk.
      apply keywordRegexTest_spec in Hk. congruence.
Qed.

Lemma C3_classifier_rules_witness :
  Generator.getLineColor (lit "const x = 1")
  = categoryColor keyword.
Proof.
  apply (proj1 (proj2 (C3_classifier_rules (lit "const x = 1")))).
  - intros [[rest H]|[rest H]]; vm_compute in H; discriminate H.
  - exists (lit "const"). split.
    + simpl. tauto.
    + exists (lit " x = 1"). split; reflexivity.
Defined.

(** The classifier examples of the specification. *)
Example classify_hash_comment :
  Generator.getLineColor (lit "# comment") = Generator.COMMENT_COLOR.
Proof. reflexivity. Qed.

Example classify_indented_slashes :
  Generator.getLineColor (lit "  // also comment")
  = Generator.COMMENT_COLOR.
Proof. reflexivity. Qed.

Example classify_keyword :
  Generator.getLineColor (lit "const x = 1") = Generator.KEYWORD_COLOR.
Proof. reflexivity. Qed.

Example classify_plain :
  Generator.getLineColor (lit "plain text") = Generator.TEXT_COLOR.
Proof. reflexivity. Qed.

Example classify_keyword_not_whole_word :
  Generator.getLineColor (lit "constant") = Generator.TEXT_COLOR.
Proof. reflexivity. Qed.

(** [C4] The markdown-header [return] of [getLineColor] is never the one
    that produces the result, and every line whose trimmed content starts
    with [#] gets the comment colour. *)
Theorem C4_markdown_rule_unreachable (line : jsstring) :
  Generator.getLineBranch line <> Generator.ByMarkdownHeader
  /\ (hasPrefix (lit "#") (JSString.trim line) ->
        Generator.getLineBranch line = Generator.ByComment
        /\ Generator.getLineColor line = Generator.COMMENT_COLOR).
Proof.
  unfold Generator.getLineColor, Generator.getLineBranch.
  set (t := JSString.trim line).
  destruct (JSString.startsWith t (lit "#")) eqn:Eh; cbn [orb].
  - split; [discriminate|]. intros _. split; reflexivity.
  - split.
    + destruct (JSString.startsWith t (lit "//")); [discriminate|].
      destruct (Generator.keywordRegexTest t); discriminate.
    + intros Hp. apply startsWith_spec in Hp. congruence.
Qed.

Lemma C4_markdown_rule_unreachable_witness :
  Generator.getLineBranch (lit "# Title") = Generator.ByComment
  /\ Generator.getLineColor (lit "# Title") = Generator.COMMENT_COLOR.
Proof.
  apply (proj2 (C4_markdown_rule_unreachable (lit "# Title"))).
  exists (lit " Title"). reflexivity.
Defined.

(* ================================================================= *)
(** ** Facts about the string order and the sort *)

Section SortFacts.
Import JSString.

Lemma leb_refl (s : jsstring) : leb s s = true.
Proof.
  induction s as [|a s IH]; simpl; [reflexivity|].
  now rewrite N.eqb_refl, IH, orb_true_r.
Qed.

Lemma leb_cons (a b : N) (s t : jsstring) :
  leb (a :: s) (b :: t) = true
  <-> (a < b)%N \/ (a = b /\ leb s t = true).
Proof.
  simpl. now rewrite orb_true_iff, andb_true_iff, N.ltb_lt, N.eqb_eq.
Qed.

Lemma leb_antisym (s t : jsstring) :
  leb s t = true -> leb t s = true -> s = t.
Proof.
  revert t. induction s as [|a s IH]; intros [|b t]; try easy.
  rewrite !leb_cons. intros [H1|[-> H1]] [H2|[E2 H2]]; try lia.
  f_equal. now apply IH.
Qed.

Lemma leb_trans (s t u : jsstring) :
  leb s t = true -> leb t u = true -> leb s u = true.
Proof.
  revert t u. induction s as [|a s IH]; intros [|b t] [|c u]; try easy.
  rewrite !leb_cons. intros [H1|[-> H1]] [H2|[-> H2]].
  - left. lia.
  - now left.
  - now left.
  - right. split; [reflexivity|]. now apply IH with t.
Qed.

Lemma leb_total (s t : jsstring) : leb s t = true \/ leb t s = true.
Proof.
  revert t. induction s as [|a s IH]; intros [|b t]; try (now left);
    try (now right).
  rewrite !leb_cons.
  destruct (N.lt_trichotomy a b) as [H|[->|H]]; [tauto| |tauto].
  destruct (IH t); tauto.
Qed.

Lemma leb_false_flip (s t : jsstring) : leb s t = false -> leb t s = true.
Proof.
  intros H. destruct (leb_total s t) as [H'|H']; congruence.
Qed.

(** A common prefix does not change the order. *)
Lemma leb_app_prefix (p s t : jsstring) : leb (p ++ s) (p ++ t) = leb s t.
Proof.
  induction p as [|a p IH]; simpl; [reflexivity|].
  now rewrite N.ltb_irrefl, N.eqb_refl, IH.
Qed.

Lemma insert_insert (x y : jsstring) (l : list jsstring) :
  insert x (insert y l) = insert y (insert x l).
Proof.
  induction l as [|z l IH]; simpl.
  - destruct (leb x y) eqn:Exy, (leb y x) eqn:Eyx; try reflexivity.
    + now rewrite (leb_antisym x y).
    + apply leb_false_flip in Exy. congruence.
  - destruct (leb y z) eqn:Eyz, (leb x z) eqn:Exz; simpl;
      rewrite ?Eyz, ?Exz.
    + destruct (leb x y) eqn:Exy, (leb y x) eqn:Eyx; try reflexivity.
      * now rewrite (leb_antisym x y).
      * apply leb_false_flip in Exy. congruence.
    + destruct (leb x y) eqn:Exy; [|reflexivity].
      rewrite (leb_trans x y z) in Exz by assumption. discriminate.
    + destruct (leb y x) eqn:Eyx; [|reflexivity].
      rewrite (leb_trans y x z) in Eyz by assumption. discriminate.
    + now rewrite IH.
Qed.

Lemma insert_perm (x : jsstring) (l : list jsstring) :
  Permutation (insert x l) (x :: l).
Proof.
  induction l as [|y l IH]; simpl; [reflexivity|].
  destruct (leb x y); [reflexivity|].
  rewrite IH. apply perm_swap.
Qed.

Lemma sort_perm (l : list jsstring) : Permutation (sort l) l.
Proof.
  induction l as [|x l IH]; simpl; [reflexivity|].
  rewrite insert_perm. now constructor.
Qed.

(** The result of the sort depends on the elements only, not on their
    order in the input. *)
Lemma sort_respects_perm (l l' : list jsstring) :
  Permutation l l' -> sort l = sort l'.
Proof.
  induction 1; simpl; try congruence. apply insert_insert.
Qed.

Lemma sortedb_cons2 (x y : jsstring) (l : list jsstring) :
  sortedb (x :: y :: l) = leb x y && sortedb (y :: l).
Proof. reflexivity. Qed.

Lemma sortedb_tail (x : jsstring) (l : list jsstring) :
  sortedb (x :: l) = true -> sortedb l = true.
Proof.
  destruct l as [|y l]; [reflexivity|].
  rewrite sortedb_cons2. intros H. now apply andb_true_iff in H.
Qed.

Lemma sort_sorted_id (l : list jsstring) : sortedb l = true -> sort l = l.
Proof.
  induction l as [|x l IH]; [reflexivity|]. intros H.
  cbn [sort]. rewrite IH by exact (sortedb_tail x l H).
  destruct l as [|y l]; [reflexivity|].
  rewrite sortedb_cons2 in H. apply andb_true_iff in H as [Hxy _].
  cbn [insert]. now rewrite Hxy.
Qed.

Lemma insert_sortedb (x : jsstring) (l : list jsstring) :
  sortedb l = true -> sortedb (insert x l) = true.
Proof.
  induction l as [|y l IH]; [reflexivity|]. intros Hs.
  cbn [insert]. destruct (leb x y) eqn:Exy.
  - now rewrite sortedb_cons2, Exy, Hs.
  - apply leb_false_flip in Exy.
    specialize (IH (sortedb_tail y l Hs)).
    destruct l as [|z l]; cbn [insert] in *.
    + now rewrite sortedb_cons2, Exy.
    + rewrite sortedb_cons2 in Hs. apply andb_true_iff in Hs as [Hyz _].
      destruct (leb x z); rewrite sortedb_cons2.
      * now rewrite Exy, IH.
      * now rewrite Hyz, IH.
Qed.

Lemma sort_sortedb (l : list jsstring) : sortedb (sort l) = true.
Proof.
  induction l as [|x l IH]; [reflexivity|]. now apply insert_sortedb.
Qed.

Lemma sortedb_firstn (n : nat) (l : list jsstring) :
  sortedb l = true -> sortedb (firstn n l) = true.
Proof.
  revert l. induction n as [|n IH]; intros l Hs; [reflexivity|].
  destruct l as [|x l]; [reflexivity|].
  specialize (IH l (sortedb_tail x l Hs)).
  destruct l as [|y l]; [now destruct n|].
  rewrite sortedb_cons2 in Hs. apply andb_true_iff in Hs as [Hxy Hs].
  destruct n as [|n]; [reflexivity|].
  cbn [firstn] in *. now rewrite sortedb_cons2, Hxy, IH.
Qed.

(** Sorting any arrangement of an ordered list gives that list. *)
Lemma sort_of_perm_sorted (l l' : list jsstring) :
  sortedb l' = true -> Permutation l l' -> sort l = l'.
Proof.
  intros Hs Hp. rewrite (sort_respects_perm l l' Hp).
  now apply sort_sorted_id.
Qed.

End SortFacts.

(* ================================================================= *)
(** ** Facts about the file namer *)

Section FileNamerFacts.
Import JSString FileNamer.

Lemma readDigits_zeros (k : nat) (s : jsstring) :
  readDigits 0 (repeat 48%N k ++ s) = readDigits 0 s.
Proof.
  unfold readDigits. rewrite fold_left_app. f_equal.
  induction k as [|k IH]; [reflexivity|]. exact IH.
Qed.

Lemma readDigits_of_uint (d : Decimal.uint) (acc : nat) :
  readDigits acc (lit (NilEmpty.string_of_uint d)) = Nat.of_uint_acc d acc.
Proof.
  revert acc.
  induction d as [|d IH|d IH|d IH|d IH|d IH|d IH|d IH|d IH|d IH|d IH];
    intros acc; [reflexivity|..];
    cbn [NilEmpty.string_of_uint lit list_ascii_of_string map];
    change (lit (NilEmpty.string_of_uint d))
      with (map N_of_ascii
              (list_ascii_of_string (NilEmpty.string_of_uint d))) in IH;
    unfold readDigits in *; cbn [fold_left]; rewrite IH;
    cbn [Nat.of_uint_acc]; f_equal;
    rewrite Nat.tail_mul_spec;
    match goal with
    | |- context [N.to_nat ?e] =>
        let v := eval vm_compute in (N.to_nat e) in
        change (N.to_nat e) with v
    end; lia.
Qed.

Lemma readDigits_ofNat (n : nat) : readDigits 0 (ofNat n) = n.
Proof.
  unfold ofNat. rewrite readDigits_of_uint.
  exact (DecimalNat.Unsigned.of_to n).
Qed.

Lemma middle_part (p d q : jsstring) :
  length p = 5%nat -> length q = 4%nat ->
  firstn (length (p ++ d ++ q) - 9) (skipn 5 (p ++ d ++ q)) = d.
Proof.
  intros Hp Hq. rewrite !length_app, Hp, Hq.
  rewrite skipn_app, Hp, skipn_all2 by lia. cbn [Nat.sub skipn app].
  replace (5 + (length d + 4) - 9)%nat with (length d) by lia.
  rewrite firstn_app, firstn_all, Nat.sub_diag. cbn [firstn].
  apply app_nil_r.
Qed.

(** The page number can be read back from the file name. *)
Lemma fileName_number (k : nat) :
  readDigits 0 (firstn (length (fileName k) - 9) (skipn 5 (fileName k)))
  = S k.
Proof.
  unfold fileName. rewrite middle_part by reflexivity.
  unfold padStart. rewrite readDigits_zeros, readDigits_ofNat. lia.
Qed.

Lemma fileName_injective (a b : nat) : fileName a = fileName b -> a = b.
Proof.
  intros H. pose proof (fileName_number a) as Ha.
  rewrite H, fileName_number in Ha. congruence.
Qed.

Lemma fileNames_999_sorted : sortedb (fileNames 999) = true.
Proof. vm_compute. reflexivity. Qed.

Lemma firstn_seq_le (n m s : nat) :
  (n <= m)%nat -> firstn n (seq s m) = seq s n.
Proof.
  intros Hle. replace m with (n + (m - n))%nat by lia.
  rewrite seq_app, firstn_app, length_seq, Nat.sub_diag.
  rewrite firstn_all2 by (rewrite length_seq; lia).
  cbn [firstn]. apply app_nil_r.
Qed.

Lemma fileNames_sorted (n : nat) :
  (n <= 999)%nat -> sortedb (fileNames n) = true.
Proof.
  intros Hn.
  replace (fileNames n) with (firstn n (fileNames 999)).
  - apply sortedb_firstn, fileNames_999_sorted.
  - unfold fileNames. rewrite firstn_map. now rewrite firstn_seq_le.
Qed.

End FileNamerFacts.

Lemma fileName_three_digits (k : nat) :
  (k < 999)%nat -> FileNamer.fileName k = threeDigitName k.
Proof.
  intros Hk.
  assert (H : forallb (fun j => JSString.eqb (FileNamer.fileName j)
                                             (threeDigitName j))
                      (seq 0 999) = true) by (vm_compute; reflexivity).
  rewrite forallb_forall in H. apply eqb_spec, H, in_seq. lia.
Qed.

(** [C7] The file namer maps the page ordinal [k] to [page_], the decimal
    numeral of [k + 1] padded with zeros on the left to three digits, and
    [.png]; the mapping is injective; and for [k < 999] sorting the names
    of pages [0..k], in whatever order they are listed, gives them back in
    page order. *)
Theorem C7_file_namer :
  (forall k,
     FileNamer.fileName k
     = lit "page_"
       ++ repeat 48%N (3 - length (JSString.ofNat (k + 1)))
       ++ JSString.ofNat (k + 1) ++ lit ".png")
  /\ (forall k, (k < 999)%nat -> FileNamer.fileName k = threeDigitName k)
  /\ (forall a b, FileNamer.fileName a = FileNamer.fileName b -> a = b)
  /\ (forall k l,
        (k < 999)%nat ->
        Permutation l (FileNamer.fileNames (S k)) ->
        JSString.sort l = FileNamer.fileNames (S k)).
Proof.
  split; [|split; [|split]].
  - intros k. unfold FileNamer.fileName, JSString.padStart.
    now rewrite <- !app_assoc.
  - exact fileName_three_digits.
  - exact fileName_injective.
  - intros k l Hk Hp. apply sort_of_perm_sorted; [|exact Hp].
    apply fileNames_sorted. lia.
Qed.

Lemma C7_file_namer_witness :
  JSString.sort [lit "page_002.png"; lit "page_003.png"; lit "page_001.png"]
  = FileNamer.fileNames 3.
Proof.
  apply (proj2 (proj2 (proj2 C7_file_namer)) 2%nat).
  - lia.
  - change (FileNamer.fileNames 3)
      with [lit "page_001.png"; lit "page_002.png"; lit "page_003.png"].
    apply Permutation_sym, Permutation_cons_app with (l1 := [_; _]).
    reflexivity.
Defined.

(** Beyond 999 pages the order of the names is no longer the page order:
    the name of page 999 ([page_1000.png]) sorts before that of page 100
    ([page_101.png]). *)
Example fileNames_1000_not_sorted :
  JSString.sort (FileNamer.fileNames 1000) <> FileNamer.fileNames 1000.
Proof.
  intros H.
  assert (Hs : sortedb (FileNamer.fileNames 1000) = true)
    by (rewrite <- H; apply sort_sortedb).
  vm_compute in Hs. discriminate Hs.
Qed.

(* ================================================================= *)
(** ** Facts about the wrapper script *)

Section DocloadFacts.
Import JSString Path Docload.

Example resolve_relative :
  resolve (lit "/work") (lit "docshot") = lit "/work/docshot".
Proof. reflexivity. Qed.

Example resolve_dots :
  resolve (lit "/work/a") (lit "../out/./img/") = lit "/work/out/img".
Proof. reflexivity. Qed.

Example relative_below :
  relative (lit "/work") (lit "/work/docshot/page_001.png")
  = lit "docshot/page_001.png".
Proof. reflexivity. Qed.

Example relative_sibling :
  relative (lit "/work/src") (lit "/work/docshot/page_001.png")
  = lit "../docshot/page_001.png".
Proof. reflexivity. Qed.

Lemma joinPath_prefix (dir name : jsstring) :
  joinPath dir name = dirPrefix dir ++ name.
Proof.
  unfold joinPath, dirPrefix. destruct (eqb dir (lit "/"));
    [reflexivity|]. now rewrite <- app_assoc.
Qed.

Lemma insert_map_prefix (p x : jsstring) (l : list jsstring) :
  insert (p ++ x) (map (app p) l) = map (app p) (insert x l).
Proof.
  induction l as [|y l IH]; [reflexivity|]. cbn [map insert].
  rewrite leb_app_prefix. destruct (leb x y); [reflexivity|].
  cbn [map]. now rewrite IH.
Qed.

(** Sorting the absolute paths of the entries of one directory is sorting
    the entry names. *)
Lemma sort_map_prefix (p : jsstring) (l : list jsstring) :
  sort (map (app p) l) = map (app p) (sort l).
Proof.
  induction l as [|x l IH]; [reflexivity|]. cbn [map sort].
  now rewrite IH, insert_map_prefix.
Qed.

Lemma sort_joinPath (dir : jsstring) (l : list jsstring) :
  sort (map (fun file => joinPath dir file) l)
  = map (joinPath dir) (sort l).
Proof.
  rewrite (map_ext _ (app (dirPrefix dir)))
    by (intros; apply joinPath_prefix).
  rewrite sort_map_prefix. apply map_ext. intros.
  symmetry. apply joinPath_prefix.
Qed.

Lemma lowerUnit_fixed (c v : N) :
  (v < 65 \/ 90 < v)%N -> (v < 97 \/ 122 < v)%N ->
  lowerUnit c = v <-> c = v.
Proof.
  intros Hv1 Hv2. unfold lowerUnit.
  destruct (N.leb_spec 65 c), (N.leb_spec c 90); cbn [andb]; lia.
Qed.

Lemma lowerUnit_letter (c v : N) :
  (97 <= v <= 122)%N ->
  lowerUnit c = v <-> (c = v \/ c = v - 32)%N.
Proof.
  intros Hv. unfold lowerUnit.
  destruct (N.leb_spec 65 c), (N.leb_spec c 90); cbn [andb]; lia.
Qed.

Lemma isPng_spec (file : jsstring) : isPng file = true <-> isPngName file.
Proof.
  unfold isPng, endsWith, toLowerCase, isPngName.
  rewrite length_map. change (length (lit ".png")) with 4%nat.
  rewrite andb_true_iff, Nat.leb_le, eqb_spec, skipn_map. split.
  - intros [Hlen Hm].
    pose proof (firstn_skipn (length file - 4) file) as Hsplit.
    destruct (skipn (length file - 4) file)
      as [|x [|a [|b [|c [|e r]]]]]; try discriminate Hm.
    change (lit ".png") with [46; 112; 110; 103]%N in Hm.
    cbn [map] in Hm. injection Hm as Hx Ha Hb Hc.
    apply (proj1 (lowerUnit_fixed x 46 ltac:(lia) ltac:(lia))) in Hx.
    apply (proj1 (lowerUnit_letter a 112 ltac:(lia))) in Ha.
    apply (proj1 (lowerUnit_letter b 110 ltac:(lia))) in Hb.
    apply (proj1 (lowerUnit_letter c 103 ltac:(lia))) in Hc.
    subst x.
    exists (firstn (length file - 4) file), a, b, c.
    split; [now symmetry|]. cbn in Ha, Hb, Hc. tauto.
  - intros (stem & a & b & c & -> & Ha & Hb & Hc).
    rewrite length_app. cbn [length]. split; [lia|].
    replace (length stem + 4 - 4)%nat with (length stem + 0)%nat by lia.
    rewrite skipn_app, skipn_all2 by lia.
    replace (length stem + 0 - length stem)%nat with 0%nat by lia.
    cbn [skipn app map].
    change (lit ".png") with [46; 112; 110; 103]%N.
    rewrite (proj2 (lowerUnit_fixed 46 46 ltac:(lia) ltac:(lia)) eq_refl).
    rewrite (proj2 (lowerUnit_letter a 112 ltac:(lia)) Ha).
    rewrite (proj2 (lowerUnit_letter b 110 ltac:(lia)) Hb).
    rewrite (proj2 (lowerUnit_letter c 103 ltac:(lia)) Hc).
    reflexivity.
Qed.

(** The builder on a directory that exists, is a directory and can be
    listed. *)
Lemma buildReference_listed (fs : FileSystem) (cwd dir : jsstring)
    (files : list jsstring) :
  existsSync fs dir = true -> isDirectory fs dir = true ->
  readdirSync fs dir = inr files ->
  buildReference fs cwd dir
  = match filter isPng files with
    | [] => inl (NoImagesFound dir)
    | _ :: _ =>
        inr (join (lit " ")
               (map (fun name => reference cwd (joinPath dir name))
                    (sort (filter isPng files))))
    end.
Proof.
  intros He Hd Hr. unfold buildReference. rewrite He, Hd, Hr.
  cbn [negb]. rewrite sort_joinPath, length_map.
  pose proof (Permutation_length (sort_perm (filter isPng files))) as Hl.
  destruct (filter isPng files) as [|x r] eqn:Ef.
  - reflexivity.
  - cbn [length] in Hl. rewrite Hl. cbn [Nat.eqb].
    now rewrite map_map.
Qed.

End DocloadFacts.

Section ForwardingFacts.
Import JSString Path Docload.

(** [findIndex] either finds nothing, or points at the first element that
    satisfies the predicate. *)
Lemma findIndex_spec {A : Type} (p : A -> bool) (l : list A) :
  (findIndex p l = -1 /\ forall x, In x l -> p x = false)
  \/ (exists pre x post,
        l = pre ++ x :: post
        /\ findIndex p l = Z.of_nat (length pre)
        /\ p x = true
        /\ forall y, In y pre -> p y = false).
Proof.
  induction l as [|a l IH]; cbn [findIndex].
  - left. split; [reflexivity|]. intros x [].
  - destruct (p a) eqn:Ea.
    + right. exists [], a, l.
      split; [reflexivity|]. split; [reflexivity|].
      split; [exact Ea|]. intros y [].
    + destruct IH as [[Hi Hall]|(pre & x & post & -> & Hi & Hx & Hpre)].
      * left. rewrite Hi. split; [reflexivity|].
        intros x [<-|Hin]; [exact Ea|now apply Hall].
      * right. exists (a :: pre), x, post. rewrite Hi.
        destruct (Z.eqb_spec (Z.of_nat (length pre)) (-1)); [lia|].
        split; [reflexivity|]. split; [cbn [length]; lia|].
        split; [exact Hx|].
        intros y [<-|Hin]; [exact Ea|now apply Hpre].
Qed.

Lemma withoutImagesFlag_none (args : list jsstring) :
  (forall a, In a args -> isImagesFlag a = false) ->
  withoutImagesFlag args = args.
Proof.
  induction args as [|a r IH]; intros Hall; [reflexivity|].
  cbn [withoutImagesFlag]. rewrite (Hall a) by now left.
  f_equal. apply IH. intros b Hb. apply Hall. now right.
Qed.

Lemma withoutImagesFlag_first (pre post : list jsstring)
    (flag : jsstring) :
  (forall a, In a pre -> isImagesFlag a = false) ->
  isImagesFlag flag = true ->
  withoutImagesFlag (pre ++ flag :: post) = pre ++ tl post.
Proof.
  intros Hpre Hflag. induction pre as [|a pre IH];
    cbn [app withoutImagesFlag].
  - now rewrite Hflag.
  - rewrite (Hpre a) by now left.
    f_equal. apply IH. intros b Hb. apply Hpre. now right.
Qed.

(** The two [slice] calls of the script remove the first images flag and
    the argument after it. *)
Lemma claudeArgs_spec (args : list jsstring) (systemPrompt : jsstring) :
  claudeArgs args systemPrompt
  = withoutImagesFlag args ++ [lit "--append-system-prompt"; systemPrompt].
Proof.
  unfold claudeArgs. f_equal.
  destruct (findIndex_spec isImagesFlag args)
    as [[Hi Hall]|(pre & x & post & -> & Hi & Hx & Hpre)]; rewrite Hi.
  - cbn [Z.eqb negb]. symmetry. now apply withoutImagesFlag_none.
  - destruct (Z.eqb_spec (Z.of_nat (length pre)) (-1)); [lia|].
    cbn [negb]. rewrite withoutImagesFlag_first by assumption.
    rewrite !slice_nonneg by lia.
    rewrite Z.sub_0_r, Nat2Z.id. cbn [Z.to_nat skipn].
    rewrite firstn_app, firstn_all, Nat.sub_diag. cbn [firstn].
    rewrite app_nil_r. f_equal.
    replace (Z.to_nat (Z.of_nat (length pre) + 2))
      with (length pre + 2)%nat by lia.
    rewrite skipn_app, skipn_all2 by lia.
    replace (length pre + 2 - length pre)%nat with 2%nat by lia.
    cbn [app skipn]. rewrite firstn_all2; [now destruct post|].
    rewrite length_app. cbn [length].
    destruct post; cbn [skipn length]; lia.
Qed.

Lemma filter_permutation {A : Type} (f : A -> bool) (l l' : list A) :
  Permutation l l' -> Permutation (filter f l) (filter f l').
Proof.
  induction 1 as [|x l l' Hp IH|x y l|l l' l'' H1 IH1 H2 IH2].
  - constructor.
  - cbn [filter]. destruct (f x); [now constructor|exact IH].
  - cbn [filter]. destruct (f x), (f y);
      try apply Permutation_refl. apply perm_swap.
  - now transitivity (filter f l').
Qed.

Lemma errorLines_nonempty (f : Failure) : errorLines f <> [].
Proof. destruct f; discriminate. Qed.

End ForwardingFacts.

(** [C5] For a directory that exists, is a directory and is listed as
    [files]: when some entry name ends in [.png] (in any letter case) the
    reference string is the list of the [@]-prefixed relative paths of
    exactly those entries, in lexicographic order of their names, joined
    by single spaces; in particular, when the entries are [page_001.png]
    and [page_002.png] (listed in either order) the string consists of
    the token of [page_001.png], one space, and the token of
    [page_002.png]. *)
Theorem C5_reference_string (fs : Docload.FileSystem)
    (cwd dir : jsstring) (files : list jsstring) :
  Docload.existsSync fs dir = true ->
  Docload.isDirectory fs dir = true ->
  Docload.readdirSync fs dir = inr files ->
  ((exists name, In name files /\ isPngName name) ->
   exists names,
     Permutation names (filter Docload.isPng files)
     /\ (forall name, In name names <-> In name files /\ isPngName name)
     /\ sortedb names = true
     /\ Docload.buildReference fs cwd dir
        = inr (JSString.join (lit " ")
                 (map (fun name =>
                         lit "@" ++ Path.relative cwd
                                      (Path.joinPath dir name))
                      names)))
  /\ (Permutation files [PAGE_001; PAGE_002] ->
      Docload.buildReference fs cwd dir
      = inr ((lit "@" ++ Path.relative cwd (Path.joinPath dir PAGE_001))
             ++ lit " "
             ++ (lit "@" ++ Path.relative cwd (Path.joinPath dir PAGE_002)))).
Proof.
  intros He Hd Hr.
  pose proof (buildReference_listed fs cwd dir files He Hd Hr) as Hb.
  split.
  - intros (name & Hin & Hpng).
    exists (JSString.sort (filter Docload.isPng files)).
    split; [apply sort_perm|]. split; [|split; [apply sort_sortedb|]].
    + intros n. split.
      * intros Hn.
        apply (Permutation_in _ (sort_perm _)) in Hn.
        apply filter_In in Hn as [Hn1 Hn2].
        split; [exact Hn1|now apply isPng_spec].
      * intros [Hn1 Hn2].
        apply (Permutation_in _ (Permutation_sym (sort_perm _))).
        apply filter_In. split; [exact Hn1|now apply isPng_spec].
    + rewrite Hb.
      destruct (filter Docload.isPng files) as [|x r] eqn:Ef;
        [|reflexivity].
      assert (Hf : In name (filter Docload.isPng files))
        by (apply filter_In; split; [exact Hin|now apply isPng_spec]).
      rewrite Ef in Hf. destruct Hf.
  - intros Hp. rewrite Hb.
    assert (Hfil : Permutation (filter Docload.isPng files)
                               [PAGE_001; PAGE_002])
      by exact (filter_permutation Docload.isPng _ _ Hp).
    assert (Hsort : JSString.sort (filter Docload.isPng files)
                    = [PAGE_001; PAGE_002])
      by (apply sort_of_perm_sorted; [reflexivity|exact Hfil]).
    rewrite Hsort.
    apply Permutation_length in Hfil.
    destruct (filter Docload.isPng files); [discriminate Hfil|].
    reflexivity.
Qed.

Lemma C5_reference_string_witness :
  Docload.buildReference (oneDirFS [PAGE_002; PAGE_001]) (lit "/work")
    (lit "/work/docshot")
  = inr (lit "@docshot/page_001.png @docshot/page_002.png").
Proof.
  apply (proj2 (C5_reference_string (oneDirFS [PAGE_002; PAGE_001])
                  (lit "/work") (lit "/work/docshot")
                  [PAGE_002; PAGE_001]
                  eq_refl eq_refl eq_refl)).
  apply perm_swap.
Defined.

(** [C6] The builder fails with [DirectoryNotFound] exactly when the
    directory does not exist; it fails with [NotADirectory] when the path
    exists and is not a directory; it fails with [NoImagesFound] when the
    directory exists, is a directory and lists no entry whose name ends in
    [.png] in any letter case.  Every failure of the builder ends the
    script with exit code 1 and a non-empty error output, and nothing is
    handed to the chat process. *)
Theorem C6_builder_failures (fs : Docload.FileSystem)
    (cwd dir : jsstring) :
  ((exists d, Docload.buildReference fs cwd dir
              = inl (Docload.DirectoryNotFound d))
   <-> Docload.existsSync fs dir = false)
  /\ (Docload.existsSync fs dir = false ->
      Docload.buildReference fs cwd dir
      = inl (Docload.DirectoryNotFound dir))
  /\ (Docload.existsSync fs dir = true ->
      Docload.isDirectory fs dir = false ->
      Docload.buildReference fs cwd dir = inl (Docload.NotADirectory dir))
  /\ (forall files,
        Docload.existsSync fs dir = true ->
        Docload.isDirectory fs dir = true ->
        Docload.readdirSync fs dir = inr files ->
        (forall name, In name files -> ~ isPngName name) ->
        Docload.buildReference fs cwd dir
        = inl (Docload.NoImagesFound dir))
  /\ (forall args imagesDir f,
        Docload.hasHelpFlag args = false ->
        Docload.imagesDirOf args = inr imagesDir ->
        Path.resolve cwd imagesDir = dir ->
        Docload.buildReference fs cwd dir = inl f ->
        Docload.docload fs cwd args = Docload.Exit 1 (Docload.errorLines f)
        /\ Docload.errorLines f <> []).
Proof.
  split; [|split; [|split; [|split]]].
  - unfold Docload.buildReference. split.
    + intros [d H].
      destruct (Docload.existsSync fs dir); [|reflexivity].
      cbn [negb] in H.
      destruct (Docload.isDirectory fs dir); cbn [negb] in H;
        [|discriminate H].
      destruct (Docload.readdirSync fs dir) as [m|files];
        [discriminate H|].
      destruct (length _ =? 0)%nat; discriminate H.
    + intros ->. now exists dir.
  - intros He. unfold Docload.buildReference. now rewrite He.
  - intros He Hd. unfold Docload.buildReference. now rewrite He, Hd.
  - intros files He Hd Hr Hnone.
    rewrite (buildReference_listed fs cwd dir files He Hd Hr).
    destruct (filter Docload.isPng files) as [|x r] eqn:Ef;
      [reflexivity|].
    assert (Hx : In x (filter Docload.isPng files))
      by (rewrite Ef; now left).
    apply filter_In in Hx as [Hx1 Hx2].
    apply isPng_spec in Hx2. now elim (Hnone x Hx1).
  - intros args imagesDir f Hh Hi Hres Hb.
    unfold Docload.docload. rewrite Hh, Hi, Hres, Hb.
    split; [reflexivity|apply errorLines_nonempty].
Qed.

Lemma C6_builder_failures_witness :
  Docload.buildReference emptyFS (lit "/work") (lit "/work/docshot")
  = inl (Docload.DirectoryNotFound (lit "/work/docshot"))
  /\ Docload.buildReference (oneDirFS []) (lit "/work")
       (lit "/work/docshot")
     = inl (Docload.NoImagesFound (lit "/work/docshot")).
Proof.
  split.
  - apply (proj1 (proj2 (C6_builder_failures emptyFS (lit "/work")
                           (lit "/work/docshot")))).
    reflexivity.
  - apply (proj1 (proj2 (proj2 (proj2
             (C6_builder_failures (oneDirFS []) (lit "/work")
                (lit "/work/docshot"))))) []);
      try reflexivity.
    intros name [].
Defined.

(** The script on a missing directory, an empty directory and a file in
    place of the directory. *)
Example docload_missing_directory :
  Docload.docload emptyFS (lit "/work") [lit "--images"; lit "nowhere"]
  = Docload.Exit 1
      [Docload.CROSS
       :: lit " Error: Directory not found: /work/nowhere"].
Proof. reflexivity. Qed.

Example docload_empty_directory :
  Docload.docload (oneDirFS [lit "notes.txt"]) (lit "/work") []
  = Docload.Exit 1
      (Docload.errorLines (Docload.NoImagesFound (lit "/work/docshot"))).
Proof. reflexivity. Qed.

Example docload_images_flag_last :
  Docload.docload (oneDirFS [PAGE_001]) (lit "/work")
    [lit "hello"; lit "--images"]
  = Docload.Exit 1 (Docload.errorLines Docload.ImagesFlagNeedsValue).
Proof. reflexivity. Qed.

(** With a help flag the script forwards its arguments as they are: the
    images flag stays and nothing is appended. *)
Lemma C10_help_flag_counterexample :
  Docload.docload emptyFS (lit "/work")
    [lit "--images"; lit "docs"; lit "--help"]
  = Docload.Spawn (lit "claude") [lit "--images"; lit "docs"; lit "--help"]
  /\ ~ forwardsWithPrompt emptyFS (lit "/work")
         [lit "--images"; lit "docs"; lit "--help"].
Proof.
  split; [reflexivity|]. intros H.
  destruct (H (lit "claude") [lit "--images"; lit "docs"; lit "--help"]
              eq_refl) as [systemPrompt Hs].
  vm_compute in Hs. discriminate Hs.
Qed.

(** [C10] Without a help flag among the arguments, the script hands over
    to [claude] exactly when the images flag (if any) has a value and the
    builder succeeds, and the forwarded arguments are then the arguments
    of the script without the first images flag and the value after it,
    in their original order, followed by [--append-system-prompt] and the
    reference string.  With a help flag the arguments are forwarded
    unchanged. *)
Theorem C10_argument_forwarding (fs : Docload.FileSystem)
    (cwd : jsstring) (args : list jsstring) :
  (Docload.hasHelpFlag args = false ->
   forall command cargs,
     Docload.docload fs cwd args = Docload.Spawn command cargs
     <-> (command = lit "claude"
          /\ exists imagesDir systemPrompt,
               Docload.imagesDirOf args = inr imagesDir
               /\ Docload.buildReference fs cwd
                    (Path.resolve cwd imagesDir) = inr systemPrompt
               /\ cargs = withoutImagesFlag args
                          ++ [lit "--append-system-prompt"; systemPrompt]))
  /\ (forall pre flag value post,
        args = pre ++ flag :: value :: post ->
        (forall a, In a pre -> Docload.isImagesFlag a = false) ->
        Docload.isImagesFlag flag = true ->
        withoutImagesFlag args = pre ++ post
        /\ Docload.imagesDirOf args = inr value)
  /\ ((forall a, In a args -> Docload.isImagesFlag a = false) ->
        withoutImagesFlag args = args
        /\ Docload.imagesDirOf args = inr (lit "docshot"))
  /\ (Docload.hasHelpFlag args = true ->
        Docload.docload fs cwd args = Docload.Spawn (lit "claude") args).
Proof.
  split; [|split; [|split]].
  - intros Hh command cargs. unfold Docload.docload. rewrite Hh.
    destruct (Docload.imagesDirOf args) as [f|imagesDir].
    { split; [discriminate|]. intros (_ & d & s & Hd & _).
      discriminate Hd. }
    destruct (Docload.buildReference fs cwd (Path.resolve cwd imagesDir))
      as [f|systemPrompt] eqn:Eb.
    { split; [discriminate|]. intros (_ & d & s & Hd & Hb & _).
      injection Hd as <-. congruence. }
    rewrite claudeArgs_spec. split.
    + intros H. injection H as <- <-. split; [reflexivity|].
      now exists imagesDir, systemPrompt.
    + intros (-> & d & s & Hd & Hb & ->).
      injection Hd as <-. rewrite Eb in Hb. now injection Hb as <-.
  - intros pre flag value post -> Hpre Hflag.
    split; [now apply withoutImagesFlag_first|].
    unfold Docload.imagesDirOf.
    destruct (findIndex_spec Docload.isImagesFlag
                (pre ++ flag :: value :: post))
      as [[Hi Hall]|(pre' & x & post' & E & Hi & Hx & Hpre')].
    + rewrite (Hall flag) in Hflag; [discriminate|].
      apply in_or_app. right. now left.
    + assert (Hlen : length pre' = length pre).
      { destruct (Nat.lt_trichotomy (length pre') (length pre))
          as [Hlt|[Heq|Hgt]]; [|exact Heq|].
        - assert (Hn : nth_error (pre ++ flag :: value :: post)
                         (length pre') = Some x)
            by (rewrite E, nth_error_app2, Nat.sub_diag; [easy|lia]).
          rewrite nth_error_app1 in Hn by exact Hlt.
          apply nth_error_In in Hn. rewrite (Hpre x Hn) in Hx.
          discriminate Hx.
        - assert (Hn : nth_error (pre' ++ x :: post') (length pre)
                       = Some flag)
            by (rewrite <- E, nth_error_app2, Nat.sub_diag; [easy|lia]).
          rewrite nth_error_app1 in Hn by exact Hgt.
          apply nth_error_In in Hn. rewrite (Hpre' flag Hn) in Hflag.
          discriminate Hflag. }
      rewrite Hi, Hlen.
      destruct (Z.eqb_spec (Z.of_nat (length pre)) (-1)); [lia|].
      cbn [negb]. rewrite length_app. cbn [length].
      destruct (Z.ltb_spec (Z.of_nat (length pre) + 1)
                  (Z.of_nat (length pre + S (S (length post)))));
        [|lia].
      replace (Z.to_nat (Z.of_nat (length pre) + 1))
        with (length pre + 1)%nat by lia.
      rewrite app_nth2 by lia.
      replace (length pre + 1 - length pre)%nat with 1%nat by lia.
      reflexivity.
  - intros Hall. split; [now apply withoutImagesFlag_none|].
    unfold Docload.imagesDirOf.
    destruct (findIndex_spec Docload.isImagesFlag args)
      as [[Hi _]|(pre & x & post & -> & _ & Hx & _)].
    + now rewrite Hi.
    + rewrite (Hall x) in Hx; [discriminate|].
      apply in_or_app. right. now left.
  - intros Hh. unfold Docload.docload. now rewrite Hh.
Qed.

Lemma C10_argument_forwarding_witness :
  Docload.docload (oneDirFS [PAGE_001]) (lit "/work")
    [lit "-p"; lit "--images"; lit "docshot"; lit "hello"]
  = Docload.Spawn (lit "claude")
      [lit "-p"; lit "hello"; lit "--append-system-prompt";
       lit "@docshot/page_001.png"].
Proof.
  apply (proj1 (C10_argument_forwarding (oneDirFS [PAGE_001])
                  (lit "/work")
                  [lit "-p"; lit "--images"; lit "docshot"; lit "hello"])
           eq_refl).
  split; [reflexivity|].
  exists (lit "docshot"), (lit "@docshot/page_001.png").
  split; [reflexivity|]. split; reflexivity.
Defined.

(* ================================================================= *)
(** ** Facts about the page renderer *)

Section RendererFacts.
Import JSString Generator Renderer.
Context {B : Backend}.

Lemma drawLines_ops (pageLines : list jsstring) :
  forall (ctx : Context2D) (startLineNum i y lineHeight : Z),
    ops (drawLines ctx pageLines startLineNum i y lineHeight)
    = ops ctx
      ++ linesOps (font ctx) pageLines (startLineNum + i) y lineHeight.
Proof.
  induction pageLines as [|line rest IH]; intros ctx s i y h.
  - cbn [drawLines linesOps]. now rewrite app_nil_r.
  - cbn [drawLines linesOps]. rewrite IH.
    cbn [fillText setFillStyle ops font fillStyle].
    rewrite <- !app_assoc. unfold lineOps. cbn [app].
    now replace (s + (i + 1)) with (s + i + 1) by lia.
Qed.

Lemma linesOps_nth (fnt : jsstring) (lineHeight : Z)
    (pageLines : list jsstring) :
  forall (k : nat) (line : jsstring) (lineNum y : Z),
    nth_error pageLines k = Some line ->
    firstn 2 (skipn (2 * k) (linesOps fnt pageLines lineNum y lineHeight))
    = lineOps fnt (lineNum + Z.of_nat k)
        (y + Z.of_nat k * lineHeight) line.
Proof.
  induction pageLines as [|l rest IH]; intros k line n y Hk.
  - destruct k; discriminate Hk.
  - destruct k as [|k].
    + injection Hk as ->. cbn [linesOps Nat.mul skipn].
      unfold lineOps at 1. cbn [app firstn].
      replace (n + Z.of_nat 0) with n by lia.
      replace (y + Z.of_nat 0 * lineHeight) with y by lia.
      reflexivity.
    + cbn [nth_error] in Hk. cbn [linesOps].
      replace (2 * S k)%nat with (2 + 2 * k)%nat by lia.
      unfold lineOps at 1. cbn [app Nat.add skipn].
      rewrite (IH k line (n + 1) (y + lineHeight) Hk).
      replace (n + 1 + Z.of_nat k) with (n + Z.of_nat (S k)) by lia.
      replace (y + lineHeight + Z.of_nat k * lineHeight)
        with (y + Z.of_nat (S k) * lineHeight) by lia.
      reflexivity.
Qed.

Lemma renderPage_ops (linesPerPage fontSize imageWidth totalPages : Z)
    (pageNum : Z) (pageLines : list jsstring) :
  skipn 2 (ops (renderPage linesPerPage fontSize imageWidth totalPages
                  pageNum pageLines))
  = linesOps (pageFont fontSize) pageLines (pageNum * linesPerPage + 1)
      (PADDING + lineHeightOf fontSize * 2) (lineHeightOf fontSize).
Proof.
  unfold renderPage. rewrite drawLines_ops.
  cbn [fillText setFillStyle setFont fillRect newContext ops font
       fillStyle app skipn].
  now rewrite Z.add_0_r.
Qed.

End RendererFacts.

(** The first line of a one-line first page is drawn with the prefix
    [    1] and the arrow, not [1    ] and the arrow; and its text starts
    at the width of seven code units (the prefix and a space), not at the
    width of the six code units of the prefix, so that the wording fails
    even when the padding is read as right alignment. *)
Lemma C8_right_padded_counterexample :
  let calls :=
    lineCalls (B := Renderer.fixedWidthBackend)
      (Renderer.renderPage 80 14 1400 1 0 [lit "x"]) 0 in
  calls
  = [Renderer.FillText (B := Renderer.fixedWidthBackend)
       Generator.LINE_NUMBER_COLOR (Renderer.pageFont 14)
       (lit "    1" ++ [Renderer.ARROW]) 40 (40 + 22 * 2);
     Renderer.FillText (B := Renderer.fixedWidthBackend)
       Generator.TEXT_COLOR (Renderer.pageFont 14)
       (lit "x") (40 + 8 * 7) (40 + 22 * 2)]
  /\ ~ drawnWithPrefix (B := Renderer.fixedWidthBackend) calls
         (rightPaddedPrefix 1) (lit "x")
  /\ ~ drawnWithPrefix (B := Renderer.fixedWidthBackend) calls
         (leftPaddedPrefix 1) (lit "x").
Proof.
  cbv zeta. split; [reflexivity|].
  split; intros (fnt & style & x & y & H).
  - vm_compute in H. discriminate H.
  - injection H as Hfnt Hx _ _ _ Hwidth _.
    rewrite <- Hx in Hwidth. vm_compute in Hwidth. discriminate Hwidth.
Qed.

(** [C8] For every line of a page, the renderer draws, in the muted
    colour and at the left padding, the 1-based line number padded with
    spaces on the left to five characters and followed by the arrow; it
    then draws the text of the line, in the colour of the classifier, on
    the same base line, at the left padding plus the measured width of
    that prefix followed by one space. *)
Theorem C8_line_drawing {B : Renderer.Backend}
    (linesPerPage fontSize imageWidth totalPages : Z)
    (pageNum : Z) (pageLines : list jsstring)
    (k : nat) (line : jsstring) :
  nth_error pageLines k = Some line ->
  let lineNum := Paginator.startLineNum pageNum linesPerPage
                 + Z.of_nat k in
  let lineNumStr :=
    repeat Renderer.SPACE (5 - length (JSString.ofZ lineNum))
    ++ JSString.ofZ lineNum in
  let y := Generator.PADDING + Renderer.lineHeightOf fontSize * 2
           + Z.of_nat k * Renderer.lineHeightOf fontSize in
  lineCalls (Renderer.renderPage linesPerPage fontSize imageWidth
               totalPages pageNum pageLines) k
  = [Renderer.FillText Generator.LINE_NUMBER_COLOR
       (Renderer.pageFont fontSize)
       (lineNumStr ++ [Renderer.ARROW])
       (Renderer.ofInt Generator.PADDING) y;
     Renderer.FillText (Generator.getLineColor line)
       (Renderer.pageFont fontSize) line
       (Renderer.add (Renderer.ofInt Generator.PADDING)
          (Renderer.measureText (Renderer.pageFont fontSize)
             (lineNumStr ++ [Renderer.ARROW; Renderer.SPACE])))
       y].
Proof.
  intros Hk lineNum lineNumStr y. unfold lineCalls.
  rewrite renderPage_ops.
  rewrite (linesOps_nth _ _ _ k line _ _ Hk). reflexivity.
Qed.

Lemma C8_line_drawing_witness :
  lineCalls (B := Renderer.fixedWidthBackend)
    (Renderer.renderPage 2 14 1400 2 1 [lit "# a"; lit "b"]) 1
  = [Renderer.FillText (B := Renderer.fixedWidthBackend) Generator.LINE_NUMBER_COLOR (Renderer.pageFont 14)
       (lit "    4" ++ [Renderer.ARROW]) 40 (40 + 22 * 2 + 22);
     Renderer.FillText (B := Renderer.fixedWidthBackend) Generator.TEXT_COLOR (Renderer.pageFont 14)
       (lit "b") (40 + 8 * 7) (40 + 22 * 2 + 22)].
Proof.
  exact (C8_line_drawing (B := Renderer.fixedWidthBackend)
           2 14 1400 2 1 [lit "# a"; lit "b"] 1 (lit "b") eq_refl).
Defined.

(* ================================================================= *)
(** ** Facts about the convert pipeline *)

Section ConvertFacts.
Import JSString Convert.

Lemma split_nonempty (sep : N) (s : jsstring) : JSString.split sep s <> [].
Proof.
  destruct s as [|c r]; cbn [JSString.split]; [discriminate|].
  destruct (c =? sep)%N; [discriminate|].
  destruct (JSString.split sep r); discriminate.
Qed.

Lemma linesOf_length (content : jsstring) :
  (1 <= length (linesOf content))%nat.
Proof.
  unfold linesOf. pose proof (split_nonempty LF content) as H.
  destruct (JSString.split LF content); [now elim H|cbn [length]; lia].
Qed.

Lemma join_cons_head (sep w : jsstring) (c : N) (ws : list jsstring) :
  join sep ((c :: w) :: ws) = c :: join sep (w :: ws).
Proof. destruct ws; reflexivity. Qed.

(** Joining the lines with line feeds gives the content back. *)
Lemma join_linesOf (content : jsstring) :
  join [LF] (linesOf content) = content.
Proof.
  unfold linesOf. induction content as [|c r IH]; [reflexivity|].
  cbn [JSString.split]. pose proof (split_nonempty LF r) as Hne.
  destruct (N.eqb_spec c LF) as [->|Hc];
    destruct (JSString.split LF r) as [|w ws]; try (now elim Hne).
  - change (join [LF] ([] :: w :: ws))
      with ([] ++ [LF] ++ join [LF] (w :: ws)).
    now rewrite IH.
  - now rewrite join_cons_head, IH.
Qed.

Lemma preset_lines_positive (density : jsstring) :
  0 < linesPerPageOf density None.
Proof.
  unfold linesPerPageOf, presetOf.
  destruct (eqb density (lit "high")); [reflexivity|].
  destruct (eqb density (lit "low")); reflexivity.
Qed.

End ConvertFacts.

(** [C9] Splitting the content of a file on line feeds always gives at
    least one line (a single empty line for the empty content), so for
    every content and every page size [L > 0], in particular for the page
    size of every density preset, the pipeline ends and writes at least
    one page: the document is never empty, [ceil(N / L) >= 1], and the
    first file written is that of page 0. *)
Theorem C9_at_least_one_page {B : Renderer.Backend}
    (content outputDir : jsstring) (L fontSize imageWidth : Z) :
  0 < L ->
  let lines := Convert.linesOf content in
  lines <> []
  /\ (1 <= length lines)%nat
  /\ Convert.linesOf [] = [[]]
  /\ 1 <= Paginator.totalPages lines L
  /\ (exists pages,
        (forall fuel, (length lines < fuel)%nat ->
           Paginator.paginate fuel lines L = Some pages)
        /\ (1 <= length pages)%nat)
  /\ (exists files,
        (forall fuel, (length lines < fuel)%nat ->
           Convert.convert fuel content outputDir L fontSize imageWidth
           = Some files)
        /\ (1 <= length files)%nat
        /\ hd_error (map fst files)
           = Some (Path.joinPath outputDir (FileNamer.fileName 0))).
Proof.
  intros HL lines.
  pose proof (linesOf_length content) as Hlen. fold lines in Hlen.
  destruct (page_count_bounds lines L HL) as (HT & HB & HP).
  assert (Hpc : (1 <= page_count lines L)%nat) by nia.
  split; [intros E; rewrite E in Hlen; cbn in Hlen; lia|].
  split; [exact Hlen|]. split; [reflexivity|]. split; [lia|].
  split.
  - exists (map (page_at lines L) (seq 0 (page_count lines L))).
    split; [intros fuel Hf; now apply paginate_pages|].
    now rewrite length_map, length_seq.
  - set (pages := map (page_at lines L)
                      (seq 0 (page_count lines L))).
    assert (Hpl : length pages = page_count lines L)
      by (subst pages; now rewrite length_map, length_seq).
    eexists. split; [|split].
    + intros fuel Hf. unfold Convert.convert, Convert.generateImages.
      fold lines. rewrite (paginate_pages lines L fuel HL Hf).
      fold pages. reflexivity.
    + rewrite length_map, length_combine, length_seq, Hpl. lia.
    + rewrite Hpl. destruct (page_count lines L) as [|n]; [lia|].
      destruct pages as [|p ps]; [discriminate Hpl|]. reflexivity.
Qed.

Lemma C9_at_least_one_page_witness :
  exists files,
    (forall fuel, (1 < fuel)%nat ->
       Convert.convert (B := Renderer.fixedWidthBackend) fuel []
         (lit "/work/docshot") 80 14 1400 = Some files)
    /\ (1 <= length files)%nat
    /\ hd_error (map fst files) = Some (lit "/work/docshot/page_001.png").
Proof.
  exact (proj2 (proj2 (proj2 (proj2 (proj2
           (C9_at_least_one_page (B := Renderer.fixedWidthBackend)
              [] (lit "/work/docshot") 80 14 1400 ltac:(lia))))))).
Defined.

(** Without a [--lines] override the page size is that of a preset, so
    the pipeline writes at least one page whatever the density name. *)
Lemma convert_with_preset {B : Renderer.Backend}
    (content outputDir density : jsstring) (fontSize imageWidth : Z) :
  exists files,
    (forall fuel, (length (Convert.linesOf content) < fuel)%nat ->
       Convert.convert fuel content outputDir
         (Convert.linesPerPageOf density None) fontSize imageWidth
       = Some files)
    /\ (1 <= length files)%nat.
Proof.
  destruct (page_count_bounds (Convert.linesOf content)
              (Convert.linesPerPageOf density None)
              (preset_lines_positive density)) as (HT & HB & HP).
  pose proof (linesOf_length content) as Hlen.
  eexists. split.
  - intros fuel Hf. unfold Convert.convert, Convert.generateImages.
    rewrite (paginate_pages _ _ fuel (preset_lines_positive density) Hf).
    reflexivity.
  - rewrite length_map, length_combine, length_seq, length_map, length_seq.
    nia.
Qed.

(** The end-to-end example of the specification: a content of 250 lines
    with 30 lines per page gives the nine files [page_001.png], ...,
    [page_009.png], in this order. *)
Example convert_250_lines_by_30 :
  option_map (map fst)
    (Convert.convert (B := Renderer.fixedWidthBackend) 251
       (repeat Convert.LF 249) (lit "/work/docshot") 30 14 1400)
  = Some (map (Path.joinPath (lit "/work/docshot"))
              (FileNamer.fileNames 9)).
Proof. vm_compute. reflexivity. Qed.

(* ================================================================= *)
(** ** Facts about the images written by [generateImages] *)

Section ImagesFacts.
Import JSString Generator Renderer Convert.
Context {B : Backend}.

Lemma combine_seq_map {A : Type} (f : nat -> A) (n a : nat) :
  combine (seq a n) (map f (seq a n)) = map (fun k => (k, f k)) (seq a n).
Proof.
  revert a. induction n as [|n IH]; intros a; [reflexivity|].
  cbn [seq map combine]. now rewrite IH.
Qed.

Lemma generateImages_files (fuel : nat) (lines : list jsstring)
    (outputDir : jsstring) (L fontSize imageWidth : Z) :
  0 < L -> (length lines < fuel)%nat ->
  generateImages fuel lines outputDir L fontSize imageWidth
  = Some (map (imageOf lines outputDir L fontSize imageWidth)
              (seq 0 (page_count lines L))).
Proof.
  intros HL Hf. unfold generateImages.
  rewrite (paginate_pages lines L fuel HL Hf).
  rewrite length_map, length_seq, combine_seq_map, map_map.
  reflexivity.
Qed.

Lemma renderPage_calls (L fontSize imageWidth totalPages pageNum : Z)
    (pageLines : list jsstring) :
  ops (renderPage L fontSize imageWidth totalPages pageNum pageLines)
  = FillRect BG_COLOR 0 0 imageWidth
      (PADDING * 2 + lineHeightOf fontSize * (L + 2))
    :: FillText LINE_NUMBER_COLOR (pageFont fontSize)
         (lit "API Documentation - Page " ++ ofZ (pageNum + 1) ++ lit "/"
          ++ ofZ totalPages)
         (ofInt PADDING) (PADDING + fontSize)
    :: linesOps (pageFont fontSize) pageLines
         (Paginator.startLineNum pageNum L)
         (PADDING + lineHeightOf fontSize * 2) (lineHeightOf fontSize).
Proof.
  unfold renderPage. rewrite drawLines_ops.
  cbn [fillText setFillStyle setFont fillRect newContext ops font
       fillStyle app].
  now rewrite Z.add_0_r.
Qed.

Lemma callPairs_linesOps (fnt : jsstring) (pageLines : list jsstring) :
  forall lineNum y lineHeight,
    callPairs (linesOps fnt pageLines lineNum y lineHeight)
    = numbered lineNum pageLines.
Proof.
  induction pageLines as [|l rest IH]; intros n y h; [reflexivity|].
  cbn [linesOps numbered]. unfold lineOps. cbn [app callPairs].
  now rewrite IH.
Qed.

Lemma numbered_app (a b : list jsstring) :
  forall start,
    numbered start (a ++ b)
    = numbered start a ++ numbered (start + Z.of_nat (length a)) b.
Proof.
  induction a as [|x a IH]; intros start.
  - cbn [app numbered length]. now rewrite Z.add_0_r.
  - cbn [app numbered length]. rewrite IH. do 3 f_equal. lia.
Qed.

(** The numbered chunks of a list, one after the other, are the numbered
    list. *)
Lemma numbered_chunks (l : list jsstring) (n : nat) :
  (0 < n)%nat ->
  forall m k,
    flat_map (fun j => numbered (Z.of_nat (j * n) + 1)
                         (firstn n (skipn (j * n) l)))
             (seq k m)
    = numbered (Z.of_nat (k * n) + 1) (firstn (m * n) (skipn (k * n) l)).
Proof.
  intros Hn. induction m as [|m IH]; intros k; [reflexivity|].
  cbn [seq flat_map]. rewrite IH.
  set (r := skipn (k * n) l).
  replace (skipn (S k * n) l) with (skipn n r)
    by (subst r; rewrite skipn_skipn; f_equal; lia).
  replace (firstn (S m * n) r)
    with (firstn n r ++ firstn (m * n) (skipn n r)).
  - rewrite numbered_app.
    destruct (Nat.le_gt_cases n (length r)) as [Hle|Hgt].
    + rewrite length_firstn, Nat.min_l by exact Hle.
      do 2 f_equal. lia.
    + rewrite (skipn_all2 (n := n) r) by lia.
      now rewrite firstn_nil.
  - rewrite <- (firstn_skipn n (firstn (S m * n) r)).
    rewrite firstn_firstn, Nat.min_l by lia.
    rewrite skipn_firstn_comm. do 2 f_equal. lia.
Qed.

Lemma linesOps_baseLines (fnt : jsstring) (lineHeight lo hi : Z)
    (pageLines : list jsstring) :
  0 <= lineHeight ->
  forall lineNum y,
    lo <= y ->
    y + (Z.of_nat (length pageLines) - 1) * lineHeight <= hi ->
    Forall (baseLineWithin lo hi)
           (linesOps fnt pageLines lineNum y lineHeight).
Proof.
  intros Hh. induction pageLines as [|l rest IH]; intros n y Hlo Hhi;
    [constructor|].
  cbn [linesOps]. unfold lineOps. cbn [app].
  cbn [length] in Hhi.
  assert (Hy : y <= hi) by nia.
  constructor; [cbn; lia|]. constructor; [cbn; lia|].
  apply IH; [lia|]. nia.
Qed.

Lemma map_snd_numbered (ls : list jsstring) :
  forall start, map snd (numbered start ls) = ls.
Proof.
  induction ls as [|l rest IH]; intros start; [reflexivity|].
  cbn [numbered map snd]. now rewrite IH.
Qed.

(** The lines drawn on the images of a document are its numbered
    lines. *)
Lemma linesDrawn_images (lines : list jsstring) (outputDir : jsstring)
    (L fontSize imageWidth : Z) :
  0 < L ->
  linesDrawn (map (imageOf lines outputDir L fontSize imageWidth)
                  (seq 0 (page_count lines L)))
  = numbered 1 lines.
Proof.
  intros HL.
  destruct (page_count_bounds lines L HL) as (HT & HB & _).
  unfold linesDrawn. rewrite flat_map_concat_map, map_map.
  rewrite <- flat_map_concat_map.
  rewrite (flat_map_ext _
             (fun j => numbered (Z.of_nat (j * Z.to_nat L) + 1)
                         (firstn (Z.to_nat L)
                                 (skipn (j * Z.to_nat L) lines)))).
  - rewrite numbered_chunks by lia. cbn [Nat.mul skipn Z.of_nat Z.add].
    f_equal. apply firstn_all2. nia.
  - intros k. unfold imageOf. cbn [snd].
    rewrite renderPage_calls. cbn [skipn].
    rewrite callPairs_linesOps, page_at_firstn_skipn by exact HL.
    unfold Paginator.startLineNum. f_equal. nia.
Qed.

End ImagesFacts.

(** [X1] For a page size [L > 0], [generateImages] ends and writes
    [ceil(N / L)] files; their paths are, in the order of writing,
    [page_001.png], [page_002.png], ... in the output directory. *)
Theorem X1_image_paths {B : Renderer.Backend} (lines : list jsstring)
    (outputDir : jsstring) (L fontSize imageWidth : Z) :
  0 < L ->
  exists files,
    (forall fuel, (length lines < fuel)%nat ->
       Convert.generateImages fuel lines outputDir L fontSize imageWidth
       = Some files)
    /\ Z.of_nat (length files) = Paginator.totalPages lines L
    /\ map fst files
       = map (Path.joinPath outputDir)
             (FileNamer.fileNames (length files)).
Proof.
  intros HL.
  destruct (page_count_bounds lines L HL) as (HT & _ & _).
  exists (map (imageOf lines outputDir L fontSize imageWidth)
              (seq 0 (page_count lines L))).
  rewrite length_map, length_seq. split; [|split].
  - intros fuel Hf. now apply generateImages_files.
  - now symmetry.
  - unfold FileNamer.fileNames. now rewrite !map_map.
Qed.

Lemma X1_image_paths_witness :
  exists files,
    (forall fuel, (3 < fuel)%nat ->
       Convert.generateImages (B := Renderer.fixedWidthBackend) fuel
         [lit "a"; lit "b"; lit "c"] (lit "/out") 2 14 1400 = Some files)
    /\ Z.of_nat (length files) = 2
    /\ map fst files
       = map (Path.joinPath (lit "/out"))
             (FileNamer.fileNames (length files)).
Proof.
  exact (X1_image_paths (B := Renderer.fixedWidthBackend)
           [lit "a"; lit "b"; lit "c"] (lit "/out") 2 14 1400
           ltac:(lia)).
Defined.

(** [X2] For a page size [L > 0], the image with ordinal [i] starts with
    the background, filled over the whole canvas of height
    [2 * PADDING + lineHeight * (L + 2)], and then the header
    [API Documentation - Page i+1/P] in the muted colour, where [P] is the
    number of images written. *)
Theorem X2_background_and_header {B : Renderer.Backend}
    (lines : list jsstring) (outputDir : jsstring)
    (L fontSize imageWidth : Z) :
  0 < L ->
  exists files,
    (forall fuel, (length lines < fuel)%nat ->
       Convert.generateImages fuel lines outputDir L fontSize imageWidth
       = Some files)
    /\ forall i, (i < length files)%nat ->
         firstn 2 (snd (nth i files ([], [])))
         = [Renderer.FillRect Generator.BG_COLOR 0 0 imageWidth
              (Generator.PADDING * 2
               + Renderer.lineHeightOf fontSize * (L + 2));
            Renderer.FillText Generator.LINE_NUMBER_COLOR
              (Renderer.pageFont fontSize)
              (lit "API Documentation - Page "
               ++ JSString.ofZ (Z.of_nat i + 1) ++ lit "/"
               ++ JSString.ofZ (Z.of_nat (length files)))
              (Renderer.ofInt Generator.PADDING)
              (Generator.PADDING + fontSize)].
Proof.
  intros HL.
  destruct (page_count_bounds lines L HL) as (HT & _ & _).
  exists (map (imageOf lines outputDir L fontSize imageWidth)
              (seq 0 (page_count lines L))).
  rewrite length_map, length_seq. split.
  - intros fuel Hf. now apply generateImages_files.
  - intros i Hi.
    rewrite (nth_indep _ _ (imageOf lines outputDir L fontSize
                              imageWidth 0))
      by now rewrite length_map, length_seq.
    rewrite map_nth, seq_nth by exact Hi. cbn [Nat.add].
    unfold imageOf. cbn [snd]. rewrite renderPage_calls, HT.
    reflexivity.
Qed.

Lemma X2_background_and_header_witness :
  exists files,
    (forall fuel, (3 < fuel)%nat ->
       Convert.generateImages (B := Renderer.fixedWidthBackend) fuel
         [lit "a"; lit "b"; lit "c"] (lit "/out") 2 14 1400 = Some files)
    /\ forall i, (i < length files)%nat ->
         firstn 2 (snd (nth i files ([], [])))
         = [Renderer.FillRect Generator.BG_COLOR 0 0 1400
              (Generator.PADDING * 2 + Renderer.lineHeightOf 14 * (2 + 2));
            Renderer.FillText Generator.LINE_NUMBER_COLOR
              (Renderer.pageFont 14)
              (lit "API Documentation - Page "
               ++ JSString.ofZ (Z.of_nat i + 1) ++ lit "/"
               ++ JSString.ofZ (Z.of_nat (length files)))
              (Renderer.ofInt Generator.PADDING)
              (Generator.PADDING + 14)].
Proof.
  exact (X2_background_and_header (B := Renderer.fixedWidthBackend)
           [lit "a"; lit "b"; lit "c"] (lit "/out") 2 14 1400
           ltac:(lia)).
Defined.

(** [X3] For a page size [L > 0], the lines drawn on the images, image
    after image, are the lines of the document, each once and in order,
    and the number drawn before a line is its 1-based position in the
    document: the numbering continues from one image to the next. *)
Theorem X3_lines_drawn_once {B : Renderer.Backend}
    (lines : list jsstring) (outputDir : jsstring)
    (L fontSize imageWidth : Z) :
  0 < L ->
  exists files,
    (forall fuel, (length lines < fuel)%nat ->
       Convert.generateImages fuel lines outputDir L fontSize imageWidth
       = Some files)
    /\ linesDrawn files = numbered 1 lines
    /\ map snd (linesDrawn files) = lines.
Proof.
  intros HL.
  destruct (page_count_bounds lines L HL) as (HT & HB & _).
  exists (map (imageOf lines outputDir L fontSize imageWidth)
              (seq 0 (page_count lines L))).
  split; [intros fuel Hf; now apply generateImages_files|].
  rewrite (linesDrawn_images lines outputDir L fontSize imageWidth HL).
  split; [reflexivity|]. apply map_snd_numbered.
Qed.

Lemma X3_lines_drawn_once_witness :
  exists files,
    (forall fuel, (3 < fuel)%nat ->
       Convert.generateImages (B := Renderer.fixedWidthBackend) fuel
         [lit "a"; lit "b"; lit "c"] (lit "/out") 2 14 1400 = Some files)
    /\ linesDrawn files = numbered 1 [lit "a"; lit "b"; lit "c"]
    /\ map snd (linesDrawn files) = [lit "a"; lit "b"; lit "c"].
Proof.
  exact (X3_lines_drawn_once (B := Renderer.fixedWidthBackend)
           [lit "a"; lit "b"; lit "c"] (lit "/out") 2 14 1400
           ltac:(lia)).
Defined.

(** [X4] For a page size [L >= 1] and a font size that is not negative,
    every text of every image is drawn on a base line between the top
    padding and the canvas height minus the bottom padding and one line
    height: no line of a page falls below the canvas. *)
Theorem X4_lines_fit_canvas {B : Renderer.Backend}
    (lines : list jsstring) (outputDir : jsstring)
    (L fontSize imageWidth : Z) :
  1 <= L -> 0 <= fontSize ->
  let imageHeight :=
    Generator.PADDING * 2 + Renderer.lineHeightOf fontSize * (L + 2) in
  exists files,
    (forall fuel, (length lines < fuel)%nat ->
       Convert.generateImages fuel lines outputDir L fontSize imageWidth
       = Some files)
    /\ forall file, In file files ->
         Forall (baseLineWithin Generator.PADDING
                   (imageHeight - Generator.PADDING
                    - Renderer.lineHeightOf fontSize))
                (snd file).
Proof.
  intros HL1 Hfs imageHeight. assert (HL : 0 < L) by lia.
  exists (map (imageOf lines outputDir L fontSize imageWidth)
              (seq 0 (page_count lines L))).
  split; [intros fuel Hf; now apply generateImages_files|].
  intros file Hin. apply in_map_iff in Hin as (k & <- & _).
  unfold imageOf. cbn [snd]. rewrite renderPage_calls.
  assert (Hlh : fontSize <= Renderer.lineHeightOf fontSize).
  { unfold Renderer.lineHeightOf.
    apply Z.div_le_lower_bound; lia. }
  subst imageHeight. unfold Generator.PADDING in *.
  set (lh := Renderer.lineHeightOf fontSize) in *.
  assert (Hmul : lh <= lh * L) by nia.
  constructor; [exact I|].
  constructor; [unfold baseLineWithin; lia|].
  apply linesOps_baseLines; [lia|lia|].
  rewrite length_page_at by exact HL.
  assert (Hk : (Z.of_nat (Nat.min (Z.to_nat L)
                            (length lines - k * Z.to_nat L)) - 1) * lh
               <= (L - 1) * lh) by nia.
  lia.
Qed.

Lemma X4_lines_fit_canvas_witness :
  exists files,
    (forall fuel, (3 < fuel)%nat ->
       Convert.generateImages (B := Renderer.fixedWidthBackend) fuel
         [lit "a"; lit "b"; lit "c"] (lit "/out") 2 14 1400 = Some files)
    /\ forall file, In file files ->
         Forall (baseLineWithin 40 (40 * 2 + 22 * (2 + 2) - 40 - 22))
                (snd file).
Proof.
  exact (X4_lines_fit_canvas (B := Renderer.fixedWidthBackend)
           [lit "a"; lit "b"; lit "c"] (lit "/out") 2 14 1400
           ltac:(lia) ltac:(lia)).
Defined.

(** [X5] A document without any line gives no image at all, whatever the
    page size; a document with a line and a page size that is zero or
    negative keeps the pagination loop running for ever, and so does the
    convert action on every content, since a content always has a
    line. *)
Theorem X5_empty_document_and_bad_page_size {B : Renderer.Backend}
    (outputDir : jsstring) (L fontSize imageWidth : Z) :
  (forall fuel,
     Convert.generateImages (S fuel) [] outputDir L fontSize imageWidth
     = Some [])
  /\ (L <= 0 ->
      forall fuel lines, lines <> [] ->
        Convert.generateImages fuel lines outputDir L fontSize imageWidth
        = None)
  /\ (L <= 0 ->
      forall fuel content,
        Convert.convert fuel content outputDir L fontSize imageWidth
        = None).
Proof.
  split; [reflexivity|]. split.
  - intros HL fuel lines Hne. unfold Convert.generateImages.
    now rewrite paginate_diverges.
  - intros HL fuel content. unfold Convert.convert, Convert.generateImages.
    rewrite paginate_diverges; [reflexivity|exact HL|].
    intros E. pose proof (linesOf_length content) as Hlen.
    rewrite E in Hlen. cbn in Hlen. lia.
Qed.

Lemma X5_empty_document_and_bad_page_size_witness :
  Convert.convert (B := Renderer.fixedWidthBackend) 1000 (lit "hello")
    (lit "/out") 0 14 1400 = None.
Proof.
  apply (proj2 (proj2 (X5_empty_document_and_bad_page_size
                         (B := Renderer.fixedWidthBackend)
                         (lit "/out") 0 14 1400))).
  lia.
Defined.

(* ================================================================= *)
(** ** Further facts about the line classifier *)

Section TrimFacts.
Import JSString Generator.

Lemma trimStart_blank (ws : jsstring) : blank ws -> trimStart ws = [].
Proof.
  induction 1 as [|c ws Hc _ IH]; [reflexivity|].
  cbn [trimStart]. now rewrite Hc.
Qed.

Lemma trimStart_blank_app (ws s : jsstring) :
  blank ws -> trimStart (ws ++ s) = trimStart s.
Proof.
  induction 1 as [|c ws Hc _ IH]; [reflexivity|].
  cbn [app trimStart]. now rewrite Hc.
Qed.

Lemma blank_rev (ws : jsstring) : blank ws -> blank (rev ws).
Proof. unfold blank. apply Forall_rev. Qed.

Lemma trimEnd_app_blank (s ws : jsstring) :
  blank ws -> trimEnd (s ++ ws) = trimEnd s.
Proof.
  intros Hws. unfold trimEnd.
  now rewrite rev_app_distr, trimStart_blank_app by now apply blank_rev.
Qed.

Lemma trimEnd_blank (ws : jsstring) : blank ws -> trimEnd ws = [].
Proof.
  intros Hws. unfold trimEnd.
  now rewrite trimStart_blank by now apply blank_rev.
Qed.

Lemma trim_app_blank (s ws : jsstring) :
  blank ws -> trim (s ++ ws) = trim s.
Proof.
  intros Hws. unfold trim. induction s as [|c s IH].
  - cbn [app]. rewrite trimStart_blank by exact Hws. reflexivity.
  - cbn [app trimStart]. destruct (isWhiteSpace c); [exact IH|].
    exact (trimEnd_app_blank (c :: s) ws Hws).
Qed.

Lemma trim_blank_around (ws1 s ws2 : jsstring) :
  blank ws1 -> blank ws2 -> trim (ws1 ++ s ++ ws2) = trim s.
Proof.
  intros H1 H2. rewrite <- (trim_app_blank s ws2 H2).
  unfold trim. now rewrite trimStart_blank_app.
Qed.

Lemma keywords_start_lower (kw : jsstring) :
  In kw KEYWORDS ->
  exists c rest, kw = c :: rest /\ (97 <= c <= 122)%N.
Proof.
  intros Hin.
  assert (H : forallb (fun k => match k with
                                | [] => false
                                | c :: _ => (97 <=? c)%N && (c <=? 122)%N
                                end) KEYWORDS = true) by reflexivity.
  rewrite forallb_forall in H. specialize (H kw Hin).
  destruct kw as [|c rest]; [discriminate|].
  apply andb_true_iff in H as [H1 H2].
  apply N.leb_le in H1, H2. now exists c, rest.
Qed.

End TrimFacts.

(** [X6] White space around a line does not change its colour: a line
    with any indentation and any trailing white space is classified as
    the line without them. *)
Theorem X6_colour_ignores_indentation (ws1 line ws2 : jsstring) :
  blank ws1 -> blank ws2 ->
  Generator.getLineColor (ws1 ++ line ++ ws2)
  = Generator.getLineColor line.
Proof.
  intros H1 H2. unfold Generator.getLineColor, Generator.getLineBranch.
  now rewrite trim_blank_around.
Qed.

Lemma X6_colour_ignores_indentation_witness :
  Generator.getLineColor
    ([9; 32]%N ++ lit "return x;" ++ [32; 13]%N)
  = Generator.getLineColor (lit "return x;").
Proof.
  apply X6_colour_ignores_indentation.
  - repeat constructor.
  - repeat constructor.
Defined.

(** [X7] A line that is no comment and whose trimmed content is empty or
    starts with anything but a lower-case ASCII letter gets the default
    colour: blank lines, capitalised keywords, digits, punctuation and
    non-ASCII text are never highlighted as keywords. *)
Theorem X7_default_colour (line : jsstring) :
  ~ commentLine (JSString.trim line) ->
  (forall c rest, JSString.trim line = c :: rest ->
     ~ (97 <= c <= 122)%N) ->
  Generator.getLineColor line = Generator.TEXT_COLOR.
Proof.
  intros Hnc Hhead.
  unfold Generator.getLineColor, Generator.getLineBranch.
  set (t := JSString.trim line) in *.
  destruct (JSString.startsWith t (lit "#")
            || JSString.startsWith t (lit "//")) eqn:Ec.
  { apply comment_test_spec in Ec. now elim Hnc. }
  apply orb_false_iff in Ec as [Eh _]. rewrite Eh.
  destruct (Generator.keywordRegexTest t) eqn:Ek; [|reflexivity].
  apply keywordRegexTest_spec in Ek as (kw & Hin & rest & Ht & _).
  destruct (keywords_start_lower kw Hin) as (c & r & -> & Hc).
  now elim (Hhead c (r ++ rest) Ht).
Qed.

Lemma X7_default_colour_witness :
  Generator.getLineColor (lit "  Const x = 1") = Generator.TEXT_COLOR
  /\ Generator.getLineColor [32; 9]%N = Generator.TEXT_COLOR.
Proof.
  split; apply X7_default_colour.
  - intros [[rest H]|[rest H]]; vm_compute in H; discriminate H.
  - intros c rest H. vm_compute in H. injection H as <- _. lia.
  - intros [[rest H]|[rest H]]; vm_compute in H; discriminate H.
  - intros c rest H. vm_compute in H. discriminate H.
Defined.

(* ================================================================= *)
(** ** Further facts about the wrapper script *)

Section BuilderFacts.
Import JSString Path Docload.

Lemma findIndex_first {A : Type} (p : A -> bool) (pre post : list A)
    (x : A) :
  (forall a, In a pre -> p a = false) -> p x = true ->
  findIndex p (pre ++ x :: post) = Z.of_nat (length pre).
Proof.
  intros Hpre Hx. induction pre as [|a pre IH]; cbn [app findIndex].
  - now rewrite Hx.
  - rewrite (Hpre a) by now left.
    rewrite IH by (intros b Hb; apply Hpre; now right).
    destruct (Z.eqb_spec (Z.of_nat (length pre)) (-1)); [lia|].
    cbn [length]. lia.
Qed.

Lemma fileName_isPng (k : nat) : isPng (FileNamer.fileName k) = true.
Proof.
  apply isPng_spec. unfold FileNamer.fileName.
  exists (lit "page_" ++ padStart (ofNat (k + 1)) 3 48), 112%N, 110%N,
         103%N.
  split; [now rewrite <- app_assoc|]. tauto.
Qed.

Lemma filter_fileNames (n : nat) :
  filter isPng (FileNamer.fileNames n) = FileNamer.fileNames n.
Proof.
  unfold FileNamer.fileNames. induction (seq 0 n) as [|k l IH];
    [reflexivity|]. cbn [map filter]. now rewrite fileName_isPng, IH.
Qed.

Lemma filter_none {A : Type} (f : A -> bool) (l : list A) :
  (forall x, In x l -> f x = false) -> filter f l = [].
Proof.
  induction l as [|x l IH]; intros H; [reflexivity|].
  cbn [filter]. rewrite (H x) by now left.
  apply IH. intros y Hy. apply H. now right.
Qed.

End BuilderFacts.

(** [X8] When the first [--images]/[-i] flag is the last argument and no
    help flag is given, the script exits with code 1 and the message that
    the flag requires a directory path, whatever the file system holds:
    it does not fall back to the default directory. *)
Theorem X8_images_flag_without_value (fs : Docload.FileSystem)
    (cwd : jsstring) (pre : list jsstring) (flag : jsstring) :
  Docload.hasHelpFlag (pre ++ [flag]) = false ->
  (forall a, In a pre -> Docload.isImagesFlag a = false) ->
  Docload.isImagesFlag flag = true ->
  Docload.docload fs cwd (pre ++ [flag])
  = Docload.Exit 1
      [Docload.CROSS
       :: lit " Error: --images flag requires a directory path"].
Proof.
  intros Hh Hpre Hflag. unfold Docload.docload, Docload.imagesDirOf.
  rewrite Hh, (findIndex_first _ pre [] flag Hpre Hflag).
  destruct (Z.eqb_spec (Z.of_nat (length pre)) (-1)); [lia|].
  cbn [negb]. rewrite length_app. cbn [length].
  destruct (Z.ltb_spec (Z.of_nat (length pre) + 1)
              (Z.of_nat (length pre + 1))); [lia|].
  reflexivity.
Qed.

Lemma X8_images_flag_without_value_witness :
  Docload.docload (oneDirFS [PAGE_001]) (lit "/work")
    ([lit "explain"] ++ [lit "-i"])
  = Docload.Exit 1
      [Docload.CROSS
       :: lit " Error: --images flag requires a directory path"].
Proof.
  apply X8_images_flag_without_value.
  - reflexivity.
  - intros a [<-|[]]. reflexivity.
  - reflexivity.
Defined.

(** [X9] The builder returns a reference string exactly when the path
    exists, is a directory, can be listed, and has at least one entry
    whose name ends in [.png] in any letter case; and when the listing
    throws, the builder fails with the message of the exception. *)
Theorem X9_builder_success (fs : Docload.FileSystem)
    (cwd dir : jsstring) :
  ((exists systemPrompt,
      Docload.buildReference fs cwd dir = inr systemPrompt)
   <-> (Docload.existsSync fs dir = true
        /\ Docload.isDirectory fs dir = true
        /\ exists files,
             Docload.readdirSync fs dir = inr files
             /\ exists name, In name files /\ isPngName name))
  /\ (forall message,
        Docload.existsSync fs dir = true ->
        Docload.isDirectory fs dir = true ->
        Docload.readdirSync fs dir = inl message ->
        Docload.buildReference fs cwd dir
        = inl (Docload.ReadError message)).
Proof.
  split.
  - split.
    + intros [sp H]. unfold Docload.buildReference in H.
      destruct (Docload.existsSync fs dir) eqn:He; [|discriminate H].
      destruct (Docload.isDirectory fs dir) eqn:Hd; [|discriminate H].
      cbn [negb] in H.
      destruct (Docload.readdirSync fs dir) as [m|files] eqn:Hr;
        [discriminate H|].
      split; [reflexivity|]. split; [reflexivity|].
      exists files. split; [reflexivity|].
      rewrite sort_joinPath, length_map in H.
      destruct (filter Docload.isPng files) as [|x r] eqn:Ef;
        [discriminate H|].
      assert (Hx : In x (filter Docload.isPng files))
        by (rewrite Ef; now left).
      apply filter_In in Hx as [Hx1 Hx2].
      exists x. split; [exact Hx1|now apply isPng_spec].
    + intros (He & Hd & files & Hr & name & Hin & Hpng).
      rewrite (buildReference_listed fs cwd dir files He Hd Hr).
      assert (Hf : In name (filter Docload.isPng files))
        by (apply filter_In; split; [exact Hin|now apply isPng_spec]).
      destruct (filter Docload.isPng files); [destruct Hf|].
      eexists. reflexivity.
  - intros message He Hd Hr. unfold Docload.buildReference.
    now rewrite He, Hd, Hr.
Qed.

Lemma X9_builder_success_witness :
  Docload.buildReference
    {| Docload.existsSync := fun _ => true;
       Docload.isDirectory := fun _ => true;
       Docload.readdirSync := fun _ => inl (lit "EACCES") |}
    (lit "/work") (lit "/work/docshot")
  = inl (Docload.ReadError (lit "EACCES")).
Proof.
  apply (proj2 (X9_builder_success _ (lit "/work") (lit "/work/docshot")));
    reflexivity.
Defined.

(** [X10] The builder reads back what [generateImages] wrote: when a
    document of at most 999 pages was converted into a directory, and the
    directory lists the page files, in any order and among any entries
    that are no PNG names, the reference string consists of the
    references of the written files in page order. *)
Theorem X10_builder_reads_back_pages {B : Renderer.Backend}
    (lines : list jsstring) (dir : jsstring) (L fontSize imageWidth : Z) :
  0 < L -> lines <> [] -> Paginator.totalPages lines L <= 999 ->
  exists written,
    (forall fuel, (length lines < fuel)%nat ->
       Convert.generateImages fuel lines dir L fontSize imageWidth
       = Some written)
    /\ forall (fs : Docload.FileSystem) (cwd : jsstring)
              (listing others : list jsstring),
         Docload.existsSync fs dir = true ->
         Docload.isDirectory fs dir = true ->
         Docload.readdirSync fs dir = inr listing ->
         Permutation listing
           (FileNamer.fileNames (length written) ++ others) ->
         (forall name, In name others -> ~ isPngName name) ->
         Docload.buildReference fs cwd dir
         = inr (JSString.join (lit " ")
                  (map (Docload.reference cwd) (map fst written))).
Proof.
  intros HL Hne Hmax.
  destruct (page_count_bounds lines L HL) as (HT & HB & _).
  exists (map (imageOf lines dir L fontSize imageWidth)
              (seq 0 (page_count lines L))).
  split; [intros fuel Hf; now apply generateImages_files|].
  rewrite length_map, length_seq.
  intros fs cwd listing others He Hd Hr Hp Hothers.
  rewrite (buildReference_listed fs cwd dir listing He Hd Hr).
  assert (Hfil : Permutation (filter Docload.isPng listing)
                   (FileNamer.fileNames (page_count lines L))).
  { rewrite (filter_permutation Docload.isPng _ _ Hp).
    rewrite filter_app, filter_fileNames, filter_none, app_nil_r;
      [reflexivity|].
    intros x Hx. apply not_true_is_false. intros Hpng.
    apply isPng_spec in Hpng. now elim (Hothers x Hx). }
  assert (Hpos : (0 < page_count lines L)%nat).
  { destruct lines; [now elim Hne|]. cbn [length] in HB. nia. }
  assert (Hle : (page_count lines L <= 999)%nat) by lia.
  rewrite (sort_of_perm_sorted _ _
             (fileNames_sorted (page_count lines L) Hle) Hfil).
  apply Permutation_length in Hfil.
  unfold FileNamer.fileNames in Hfil at 1.
  rewrite length_map, length_seq in Hfil.
  destruct (filter Docload.isPng listing); [cbn in Hfil; lia|].
  unfold FileNamer.fileNames. rewrite !map_map. reflexivity.
Qed.

Lemma X10_builder_reads_back_pages_witness :
  exists written,
    (forall fuel, (3 < fuel)%nat ->
       Convert.generateImages (B := Renderer.fixedWidthBackend) fuel
         [lit "a"; lit "b"; lit "c"] (lit "/work/docshot") 2 14 1400
       = Some written)
    /\ Docload.buildReference
         (oneDirFS [lit "notes.txt"; PAGE_002; PAGE_001]) (lit "/work")
         (lit "/work/docshot")
       = inr (JSString.join (lit " ")
                (map (Docload.reference (lit "/work")) (map fst written))).
Proof.
  assert (H1 : 0 < 2) by lia.
  assert (H2 : [lit "a"; lit "b"; lit "c"] <> []) by discriminate.
  assert (H3 : Paginator.totalPages [lit "a"; lit "b"; lit "c"] 2 <= 999)
    by (vm_compute; discriminate).
  destruct (X10_builder_reads_back_pages
              (B := Renderer.fixedWidthBackend)
              [lit "a"; lit "b"; lit "c"] (lit "/work/docshot")
              2 14 1400 H1 H2 H3)
    as (written & Hrun & Hback).
  exists written. split; [exact Hrun|].
  assert (Hlen : length written = 2%nat).
  { assert (Hfuel : (length [lit "a"; lit "b"; lit "c"] < 4)%nat)
      by (cbn [length]; lia).
    specialize (Hrun 4%nat Hfuel). vm_compute in Hrun.
    injection Hrun as <-. reflexivity. }
  apply (Hback (oneDirFS [lit "notes.txt"; PAGE_002; PAGE_001])
           (lit "/work") [lit "notes.txt"; PAGE_002; PAGE_001]
           [lit "notes.txt"]); try reflexivity.
  - rewrite Hlen.
    change (FileNamer.fileNames 2) with [PAGE_001; PAGE_002].
    cbn [app].
    apply Permutation_trans with [PAGE_002; PAGE_001; lit "notes.txt"].
    + apply Permutation_cons_append with (l := [PAGE_002; PAGE_001]).
    + apply Permutation_trans with [PAGE_001; PAGE_002; lit "notes.txt"];
        [apply perm_swap|reflexivity].
  - intros name [<-|[]] Hpng. apply isPng_spec in Hpng.
    vm_compute in Hpng. discriminate Hpng.
Defined.

(** [X11] The reference string does not depend on the order in which the
    directory is listed: two listings with the same entries give the same
    result. *)
Theorem X11_listing_order_irrelevant (fs1 fs2 : Docload.FileSystem)
    (cwd dir : jsstring) (listing1 listing2 : list jsstring) :
  Docload.existsSync fs1 dir = Docload.existsSync fs2 dir ->
  Docload.isDirectory fs1 dir = Docload.isDirectory fs2 dir ->
  Docload.readdirSync fs1 dir = inr listing1 ->
  Docload.readdirSync fs2 dir = inr listing2 ->
  Permutation listing1 listing2 ->
  Docload.buildReference fs1 cwd dir = Docload.buildReference fs2 cwd dir.
Proof.
  intros He Hd Hr1 Hr2 Hp. unfold Docload.buildReference.
  rewrite He, Hd, Hr1, Hr2.
  destruct (Docload.existsSync fs2 dir); [|reflexivity].
  destruct (Docload.isDirectory fs2 dir); [|reflexivity].
  cbn [negb].
  pose proof (filter_permutation Docload.isPng _ _ Hp) as Hf.
  rewrite !sort_joinPath, (sort_respects_perm _ _ Hf). reflexivity.
Qed.

Lemma X11_listing_order_irrelevant_witness :
  Docload.buildReference (oneDirFS [PAGE_002; lit "b.PNG"; PAGE_001])
    (lit "/work") (lit "/work/docshot")
  = Docload.buildReference (oneDirFS [PAGE_001; PAGE_002; lit "b.PNG"])
      (lit "/work") (lit "/work/docshot").
Proof.
  apply (X11_listing_order_irrelevant _ _ _ _
           [PAGE_002; lit "b.PNG"; PAGE_001]
           [PAGE_001; PAGE_002; lit "b.PNG"]); try reflexivity.
  apply Permutation_trans with [PAGE_002; PAGE_001; lit "b.PNG"].
  - apply perm_skip, perm_swap.
  - apply perm_swap.
Defined.

(* ================================================================= *)
(** ** Facts about splitting into lines and about directory names *)

Section SplitFacts.
Import JSString Path Index Helpers.

Lemma split_app_sep (sep : N) (a b : jsstring) :
  split sep (a ++ sep :: b) = split sep a ++ split sep b.
Proof.
  induction a as [|c a IH]; cbn [app split].
  - now rewrite N.eqb_refl.
  - rewrite IH. destruct (c =? sep)%N; [reflexivity|].
    pose proof (split_nonempty sep a) as Hne.
    destruct (split sep a) as [|w ws]; [now elim Hne|reflexivity].
Qed.

Lemma split_no_sep (sep : N) (s : jsstring) :
  ~ In sep s -> split sep s = [s].
Proof.
  induction s as [|c s IH]; intros Hn; [reflexivity|].
  cbn [split]. destruct (N.eqb_spec c sep) as [->|_].
  - elim Hn. now left.
  - rewrite IH; [reflexivity|]. intros H. apply Hn. now right.
Qed.

Lemma split_segments (sep : N) (s : jsstring) :
  Forall (fun seg => ~ In sep seg) (split sep s).
Proof.
  induction s as [|c s IH]; cbn [split].
  - constructor; [intros []|constructor].
  - destruct (N.eqb_spec c sep) as [->|Hc].
    + constructor; [intros []|exact IH].
    + destruct (split sep s) as [|w ws]; [repeat constructor|].
      * intros [H|[]]. now elim Hc.
      * inversion IH as [|? ? Hw Hws]; subst.
        constructor; [|exact Hws].
        intros [H|H]; [now elim Hc|now elim Hw].
Qed.

Lemma length_split (sep : N) (s : jsstring) :
  length (split sep s) = S (length (filter (N.eqb sep) s)).
Proof.
  induction s as [|c s IH]; [reflexivity|]. cbn [split filter].
  rewrite (N.eqb_sym sep c). destruct (c =? sep)%N.
  - cbn [length]. now rewrite IH.
  - pose proof (split_nonempty sep s) as Hne.
    destruct (split sep s) as [|w ws]; [now elim Hne|exact IH].
Qed.

Lemma split_join (sep : N) (ls : list jsstring) :
  ls <> [] -> Forall (fun l => ~ In sep l) ls ->
  split sep (join [sep] ls) = ls.
Proof.
  intros Hne Hall. induction Hall as [|l ls Hl Hls IH]; [now elim Hne|].
  destruct ls as [|l' ls].
  - cbn [join]. now apply split_no_sep.
  - change (join [sep] (l :: l' :: ls))
      with (l ++ sep :: join [sep] (l' :: ls)).
    rewrite split_app_sep, split_no_sep by exact Hl.
    rewrite IH by discriminate. reflexivity.
Qed.

Lemma last_split_child (dir name : jsstring) :
  ~ In SLASH name ->
  last (split SLASH (dir ++ lit "/" ++ name)) [] = name.
Proof.
  intros Hn. change (lit "/" ++ name) with (SLASH :: name).
  rewrite split_app_sep, (split_no_sep SLASH name Hn).
  apply last_last.
Qed.

Lemma sanitized_safe (s : jsstring) :
  Forall (fun c => isSafeUnit c = true)
         (map (fun c => if isSafeUnit c then c else 95%N) s).
Proof.
  induction s as [|c s IH]; [constructor|]. cbn [map].
  constructor; [|exact IH].
  destruct (isSafeUnit c) eqn:E; [exact E|reflexivity].
Qed.

(** The code units of a decimal numeral are digits. *)
Lemma ofNat_digits (n : nat) :
  Forall (fun c => (48 <= c <= 57)%N) (ofNat n).
Proof.
  unfold ofNat. induction (Nat.to_uint n) as
    [|d IH|d IH|d IH|d IH|d IH|d IH|d IH|d IH|d IH|d IH];
    [constructor|..];
    cbn [NilEmpty.string_of_uint lit list_ascii_of_string map];
    (constructor; [vm_compute; split; discriminate|exact IH]).
Qed.

Lemma ofNat_single_line (n : nat) : singleLine (ofNat n).
Proof.
  intros Hin. pose proof (ofNat_digits n) as Hd.
  rewrite Forall_forall in Hd. specialize (Hd _ Hin).
  unfold Convert.LF in Hd. lia.
Qed.

Lemma singleLine_app (a b : jsstring) :
  singleLine a -> singleLine b -> singleLine (a ++ b).
Proof.
  unfold singleLine. intros Ha Hb Hin.
  apply in_app_or in Hin as [H|H]; [now apply Ha|now apply Hb].
Qed.

Lemma singleLine_check (s : jsstring) :
  forallb (fun c => negb (c =? Convert.LF)%N) s = true -> singleLine s.
Proof.
  intros H Hin. rewrite forallb_forall in H. specialize (H _ Hin).
  now rewrite N.eqb_refl in H.
Qed.

Lemma testContentStep_single_lines (i : nat) :
  Forall singleLine (testContentStep i).
Proof.
  unfold testContentStep.
  destruct (_ =? 0)%nat; [|destruct (_ =? 0)%nat;
                           [|destruct (_ =? 0)%nat]];
    repeat constructor;
    repeat (apply singleLine_app);
    try apply ofNat_single_line;
    try (apply singleLine_check; reflexivity).
Qed.

Lemma forall_flat_map {A C : Type} (P : C -> Prop) (f : A -> list C)
    (l : list A) :
  (forall x, Forall P (f x)) -> Forall P (flat_map f l).
Proof.
  intros H. induction l as [|x l IH]; [constructor|].
  cbn [flat_map]. apply Forall_app. split; [apply H|exact IH].
Qed.

Lemma forall_repeat {A : Type} (P : A -> Prop) (x : A) (n : nat) :
  P x -> Forall P (repeat x n).
Proof.
  intros H. induction n; constructor; assumption.
Qed.

Lemma forall_firstn {A : Type} (P : A -> Prop) (n : nat) (l : list A) :
  Forall P l -> Forall P (firstn n l).
Proof.
  intros H. revert n. induction H as [|x l Hx Hl IH]; intros [|n];
    try constructor; [exact Hx|apply IH].
Qed.

End SplitFacts.

(** [X12] The directory name made from a file path consists of the code
    units [a-z], [A-Z], [0-9], [-] and [_] only and is as long as the
    base name it is made from; it has no slash, so the output directory
    of a file in multi-file mode is an immediate sub-directory of the
    base directory; and a base name that is already made of these code
    units is kept as it is. *)
Theorem X12_directory_name_is_safe (filePath : jsstring) :
  Forall (fun c => Index.isSafeUnit c = true)
         (Index.fileToDirectoryName filePath)
  /\ ~ In Path.SLASH (Index.fileToDirectoryName filePath)
  /\ length (Index.fileToDirectoryName filePath)
     = length (Index.basename filePath (lit ".md"))
  /\ (Forall (fun c => Index.isSafeUnit c = true)
             (Index.basename filePath (lit ".md")) ->
      Index.fileToDirectoryName filePath
      = Index.basename filePath (lit ".md")).
Proof.
  pose proof (sanitized_safe (Index.basename filePath (lit ".md"))) as Hs.
  fold (Index.fileToDirectoryName filePath) in Hs.
  split; [exact Hs|]. split; [|split].
  - rewrite Forall_forall in Hs. intros Hin. specialize (Hs _ Hin).
    discriminate Hs.
  - unfold Index.fileToDirectoryName. apply length_map.
  - unfold Index.fileToDirectoryName.
    induction 1 as [|c s Hc _ IH]; [reflexivity|].
    cbn [map]. now rewrite Hc, IH.
Qed.

Lemma X12_directory_name_is_safe_witness :
  Index.fileToDirectoryName (lit "/docs/api-reference_v2.md")
  = lit "api-reference_v2".
Proof.
  apply (proj2 (proj2 (proj2 (X12_directory_name_is_safe
                                (lit "/docs/api-reference_v2.md"))))).
  apply Forall_forall. intros c Hc.
  vm_compute in Hc.
  repeat (destruct Hc as [<-|Hc]; [reflexivity|]). destruct Hc.
Defined.

(** [X13] In multi-file mode two input files with the same file name in
    two different directories get the same output directory, so the pages of
    the two documents are written to the same paths: page [i] of the
    second overwrites page [i] of the first. *)
Theorem X13_same_name_same_directory {B : Renderer.Backend}
    (outputBaseDir dir1 dir2 name : jsstring)
    (lines1 lines2 : list jsstring) (L fontSize imageWidth : Z) :
  name <> [] -> ~ In Path.SLASH name -> 0 < L ->
  let out1 := Index.outputDirOf true outputBaseDir
                (dir1 ++ lit "/" ++ name) in
  let out2 := Index.outputDirOf true outputBaseDir
                (dir2 ++ lit "/" ++ name) in
  out1 = out2
  /\ exists files1 files2,
       (forall fuel, (length lines1 < fuel)%nat ->
          Convert.generateImages fuel lines1 out1 L fontSize imageWidth
          = Some files1)
       /\ (forall fuel, (length lines2 < fuel)%nat ->
             Convert.generateImages fuel lines2 out2 L fontSize imageWidth
             = Some files2)
       /\ forall i, (i < length files1)%nat -> (i < length files2)%nat ->
            fst (nth i files1 ([], [])) = fst (nth i files2 ([], [])).
Proof.
  intros _ Hn HL out1 out2.
  assert (E : out1 = out2).
  { subst out1 out2. unfold Index.outputDirOf, Index.fileToDirectoryName,
      Index.basename. now rewrite !last_split_child. }
  split; [exact E|].
  exists (map (imageOf lines1 out1 L fontSize imageWidth)
              (seq 0 (page_count lines1 L))),
         (map (imageOf lines2 out2 L fontSize imageWidth)
              (seq 0 (page_count lines2 L))).
  split; [intros fuel Hf; now apply generateImages_files|].
  split; [intros fuel Hf; now apply generateImages_files|].
  rewrite !length_map, !length_seq. intros i H1 H2.
  rewrite (nth_indep _ _ (imageOf lines1 out1 L fontSize imageWidth 0))
    by now rewrite length_map, length_seq.
  rewrite (nth_indep (map (imageOf lines2 out2 L fontSize imageWidth) _)
             _ (imageOf lines2 out2 L fontSize imageWidth 0))
    by now rewrite length_map, length_seq.
  rewrite !map_nth, !seq_nth by assumption.
  unfold imageOf. cbn [fst]. now rewrite E.
Qed.

Lemma X13_same_name_same_directory_witness :
  Index.outputDirOf true (lit "/out") (lit "/docs/api" ++ lit "/"
                                        ++ lit "README.md")
  = Index.outputDirOf true (lit "/out") (lit "/docs/cli" ++ lit "/"
                                         ++ lit "README.md").
Proof.
  assert (Hn : ~ In Path.SLASH (lit "README.md")).
  { intros H. vm_compute in H. intuition discriminate. }
  exact (proj1 (X13_same_name_same_directory
                  (B := Renderer.fixedWidthBackend)
                  (lit "/out") (lit "/docs/api") (lit "/docs/cli")
                  (lit "README.md") [lit "a"] [lit "b"] 80 14 1400
                  ltac:(discriminate) Hn eq_refl)).
Defined.

(** [X14] The lines of a content: there is one line more than there are
    line feeds, no line contains a line feed, joining the lines with line
    feeds gives the content back, and a content that ends with a line
    feed has an empty last line. *)
Theorem X14_lines_of_content (content : jsstring) :
  length (Convert.linesOf content) = S (lineFeeds content)
  /\ Forall singleLine (Convert.linesOf content)
  /\ JSString.join [Convert.LF] (Convert.linesOf content) = content
  /\ Convert.linesOf (content ++ [Convert.LF])
     = Convert.linesOf content ++ [[]].
Proof.
  unfold Convert.linesOf, lineFeeds, singleLine.
  split; [apply length_split|]. split; [apply split_segments|].
  split; [apply join_linesOf|]. now rewrite split_app_sep.
Qed.

(** [X15] For a page size [L > 0] the convert action ends, and the texts
    drawn on its images, joined by line feeds in the order of drawing,
    are the content of the file: nothing of the content is lost or
    repeated on the images. *)
Theorem X15_images_hold_the_content {B : Renderer.Backend}
    (content outputDir : jsstring) (L fontSize imageWidth : Z) :
  0 < L ->
  exists files,
    (forall fuel, (length (Convert.linesOf content) < fuel)%nat ->
       Convert.convert fuel content outputDir L fontSize imageWidth
       = Some files)
    /\ JSString.join [Convert.LF] (map snd (linesDrawn files)) = content.
Proof.
  intros HL. set (lines := Convert.linesOf content).
  destruct (page_count_bounds lines L HL) as (HT & HB & _).
  exists (map (imageOf lines outputDir L fontSize imageWidth)
              (seq 0 (page_count lines L))).
  split; [intros fuel Hf; now apply generateImages_files|].
  rewrite (linesDrawn_images lines outputDir L fontSize imageWidth HL).
  rewrite map_snd_numbered. apply join_linesOf.
Qed.

Lemma X15_images_hold_the_content_witness :
  exists files,
    (forall fuel, (3 < fuel)%nat ->
       Convert.convert (B := Renderer.fixedWidthBackend) fuel
         (lit "a" ++ [Convert.LF] ++ lit "b" ++ [Convert.LF])
         (lit "/out") 2 14 1400 = Some files)
    /\ JSString.join [Convert.LF] (map snd (linesDrawn files))
       = lit "a" ++ [Convert.LF] ++ lit "b" ++ [Convert.LF].
Proof.
  exact (X15_images_hold_the_content (B := Renderer.fixedWidthBackend)
           (lit "a" ++ [Convert.LF] ++ lit "b" ++ [Convert.LF])
           (lit "/out") 2 14 1400 ltac:(lia)).
Defined.

Section TestContentFacts.
Import JSString Helpers.

(** For [lines >= 1] the test content is the join of exactly [lines]
    strings without line feed. *)
Lemma generateTestContent_lines (lines : Z) :
  1 <= lines ->
  exists ls,
    generateTestContent lines = join [Convert.LF] ls
    /\ length ls = Z.to_nat lines
    /\ Forall singleLine ls.
Proof.
  intros Hl. unfold generateTestContent.
  set (c0 := _ ++ flat_map testContentStep _).
  set (c1 := c0 ++ repeat [] _).
  assert (Hs0 : Forall singleLine c0).
  { subst c0. apply Forall_app. split.
    - apply Forall_forall. intros x Hx. apply singleLine_check.
      destruct Hx as [<-|[<-|[<-|[<-|[]]]]]; reflexivity.
    - apply forall_flat_map, testContentStep_single_lines. }
  assert (Hs1 : Forall singleLine c1).
  { subst c1. apply Forall_app. split; [exact Hs0|].
    apply forall_repeat. intros []. }
  assert (Hlen : (Z.to_nat lines <= length c1)%nat).
  { subst c1. rewrite length_app, repeat_length. lia. }
  exists (slice c1 0 lines). split; [reflexivity|].
  rewrite slice_nonneg by lia. cbn [Z.to_nat skipn].
  rewrite Z.sub_0_r. split.
  - rewrite length_firstn. lia.
  - now apply forall_firstn.
Qed.

End TestContentFacts.

(** [X16] The test content generated for [n >= 1] lines has exactly [n]
    lines as [countLines] counts them, and converting it with a page size
    [L > 0] writes [ceil(n / L)] images, the number the integration tests
    expect. *)
Theorem X16_test_content_line_count {B : Renderer.Backend}
    (n L : Z) (outputDir : jsstring) (fontSize imageWidth : Z) :
  1 <= n -> 0 < L ->
  Helpers.countLines (Helpers.generateTestContent n) = Z.to_nat n
  /\ exists files,
       (forall fuel, (Z.to_nat n < fuel)%nat ->
          Convert.convert fuel (Helpers.generateTestContent n) outputDir
            L fontSize imageWidth = Some files)
       /\ Z.of_nat (length files) = Paginator.ceil_div n L.
Proof.
  intros Hn HL.
  destruct (generateTestContent_lines n Hn) as (ls & E & Hlen & Hs).
  assert (Hne : ls <> []) by (destruct ls; [cbn in Hlen; lia|discriminate]).
  assert (Hsplit : Convert.linesOf (Helpers.generateTestContent n) = ls).
  { unfold Convert.linesOf. rewrite E. now apply split_join. }
  split.
  - unfold Helpers.countLines.
    change (JSString.split Convert.LF (Helpers.generateTestContent n))
      with (Convert.linesOf (Helpers.generateTestContent n)).
    now rewrite Hsplit.
  - destruct (page_count_bounds ls L HL) as (HT & _ & _).
    exists (map (imageOf ls outputDir L fontSize imageWidth)
                (seq 0 (page_count ls L))).
    split.
    + intros fuel Hf. unfold Convert.convert. rewrite Hsplit.
      apply generateImages_files; [exact HL|lia].
    + rewrite length_map, length_seq, <- HT.
      unfold Paginator.totalPages. rewrite Hlen. f_equal. lia.
Qed.

Lemma X16_test_content_line_count_witness :
  Helpers.countLines (Helpers.generateTestContent 81) = 81%nat
  /\ exists files,
       (forall fuel, (81 < fuel)%nat ->
          Convert.convert (B := Renderer.fixedWidthBackend) fuel
            (Helpers.generateTestContent 81) (lit "/out") 80 14 1400
          = Some files)
       /\ Z.of_nat (length files) = 2.
Proof.
  exact (X16_test_content_line_count (B := Renderer.fixedWidthBackend)
           81 80 (lit "/out") 14 1400 ltac:(lia) ltac:(lia)).
Defined.

(* ================================================================= *)
(** ** Facts about the width of the line-number column *)

Section NumeralFacts.
Import JSString.

Lemma readDigits_bounds (s : jsstring) :
  Forall (fun c => (48 <= c <= 57)%N) s ->
  forall acc,
    (acc * 10 ^ length s <= readDigits acc s
     /\ readDigits acc s < (acc + 1) * 10 ^ length s)%nat.
Proof.
  induction 1 as [|c s Hc _ IH]; intros acc.
  - cbn [readDigits fold_left length Nat.pow]. lia.
  - change (readDigits acc (c :: s))
      with (readDigits (10 * acc + N.to_nat (c - 48)) s).
    specialize (IH (10 * acc + N.to_nat (c - 48))%nat).
    cbn [length]. rewrite Nat.pow_succ_r'.
    set (p := (10 ^ length s)%nat) in *.
    assert (Hd : (N.to_nat (c - 48) <= 9)%nat) by lia.
    nia.
Qed.

(** The numeral of a positive number starts with a digit from 1 to 9. *)
Lemma ofNat_head (n : nat) :
  (0 < n)%nat ->
  exists c rest, ofNat n = c :: rest /\ (49 <= c <= 57)%N.
Proof.
  intros Hn. unfold ofNat.
  pose proof (DecimalNat.Unsigned.to_of (Nat.to_uint n)) as Hnorm.
  rewrite DecimalNat.Unsigned.of_to in Hnorm.
  pose proof (DecimalNat.Unsigned.of_to n) as Hval.
  destruct (Nat.to_uint n) as [|d|d|d|d|d|d|d|d|d|d] eqn:E;
    cbn [NilEmpty.string_of_uint lit list_ascii_of_string map];
    try (eexists; eexists; split; [reflexivity|vm_compute; split;
                                                discriminate]).
  - symmetry in Hnorm. now apply DecimalFacts.unorm_nonnil in Hnorm.
  - exfalso. unfold Decimal.unorm in Hnorm.
    destruct (Decimal.nzhead (Decimal.D0 d)) eqn:Ez;
      try (symmetry in Hnorm; rewrite <- Ez in Hnorm;
           now apply DecimalFacts.nzhead_nonzero in Hnorm).
    injection Hnorm as ->. cbn in Hval. lia.
Qed.

Lemma length_ofNat (n k : nat) :
  (0 < n)%nat ->
  (length (ofNat n) <= k <-> n < 10 ^ k)%nat.
Proof.
  intros Hn. destruct (ofNat_head n Hn) as (c & rest & E & Hc).
  pose proof (ofNat_digits n) as Hd. pose proof (readDigits_ofNat n) as Hr.
  rewrite E in Hd, Hr. pose proof (Forall_inv_tail Hd) as Hrest.
  change (readDigits 0 (c :: rest))
    with (readDigits (10 * 0 + N.to_nat (c - 48)) rest) in Hr.
  destruct (readDigits_bounds rest Hrest (10 * 0 + N.to_nat (c - 48)))
    as [Hlo Hhi].
  rewrite Hr in Hlo, Hhi. rewrite E. cbn [length].
  assert (Hc1 : (1 <= N.to_nat (c - 48) <= 9)%nat) by lia.
  set (d := N.to_nat (c - 48)) in *. set (l := length rest) in *.
  split; intros H.
  - assert (Hpow : (10 ^ S l <= 10 ^ k)%nat)
      by (apply Nat.pow_le_mono_r; lia).
    rewrite Nat.pow_succ_r' in Hpow. nia.
  - destruct (Nat.le_gt_cases (S l) k) as [Hle|Hgt]; [exact Hle|].
    assert (Hpow : (10 ^ k <= 10 ^ l)%nat)
      by (apply Nat.pow_le_mono_r; lia).
    nia.
Qed.

Lemma length_leftPaddedPrefix (n : Z) :
  1 <= n ->
  (length (leftPaddedPrefix n) = 6%nat <-> n <= 99999)
  /\ (6 <= length (leftPaddedPrefix n))%nat.
Proof.
  intros Hn. unfold leftPaddedPrefix, padStart, ofZ.
  destruct (Z.ltb_spec n 0); [lia|].
  rewrite !length_app, repeat_length. cbn [length].
  pose proof (length_ofNat (Z.to_nat n) 5 ltac:(lia)) as H5.
  assert (Hz : (Z.to_nat n < 10 ^ 5)%nat <-> n <= 99999).
  { rewrite Nat2Z.inj_lt, Nat2Z.inj_pow, Z2Nat.id by lia.
    change (Z.of_nat 10 ^ Z.of_nat 5) with 100000. lia. }
  rewrite Hz in H5. split; [|lia]. split; intros H'; lia.
Qed.

Lemma numbered_prefix_lengths (ls : list jsstring) :
  forall start,
    1 <= start -> start + Z.of_nat (length ls) - 1 <= 99999 ->
    Forall (fun p => length (fst p) = 6%nat) (numbered start ls).
Proof.
  induction ls as [|l rest IH]; intros start Hs Hmax; [constructor|].
  cbn [numbered]. cbn [length] in Hmax. constructor.
  - cbn [fst]. apply (length_leftPaddedPrefix start Hs). lia.
  - apply IH; lia.
Qed.

End NumeralFacts.

(** [X17] The line numbers form a right-aligned column of fixed width as
    long as they have at most five digits: for a document of at most
    99999 lines every prefix drawn before a line has exactly six code
    units (the padded number and the arrow); a line number from 100000 on
    is not truncated and makes the prefix longer. *)
Theorem X17_line_number_column {B : Renderer.Backend}
    (lines : list jsstring) (outputDir : jsstring)
    (L fontSize imageWidth : Z) :
  0 < L ->
  exists files,
    (forall fuel, (length lines < fuel)%nat ->
       Convert.generateImages fuel lines outputDir L fontSize imageWidth
       = Some files)
    /\ (Z.of_nat (length lines) <= 99999 ->
        Forall (fun p => length (fst p) = 6%nat) (linesDrawn files))
    /\ (forall k prefix text,
          nth_error (linesDrawn files) k = Some (prefix, text) ->
          99999 <= Z.of_nat k -> (6 < length prefix)%nat).
Proof.
  intros HL.
  exists (map (imageOf lines outputDir L fontSize imageWidth)
              (seq 0 (page_count lines L))).
  split; [intros fuel Hf; now apply generateImages_files|].
  rewrite (linesDrawn_images lines outputDir L fontSize imageWidth HL).
  split.
  - intros Hmax. apply numbered_prefix_lengths; lia.
  - intros k prefix text Hk Hbig.
    assert (Hgen : forall ls start j p t,
               nth_error (numbered start ls) j = Some (p, t) ->
               p = leftPaddedPrefix (start + Z.of_nat j)).
    { clear. induction ls as [|l rest IH]; intros start j p t H.
      - destruct j; discriminate H.
      - destruct j as [|j]; cbn [numbered nth_error] in H.
        + injection H as <- _. f_equal. lia.
        + rewrite (IH _ _ _ _ H). f_equal. lia. }
    rewrite (Hgen _ _ _ _ _ Hk).
    destruct (length_leftPaddedPrefix (1 + Z.of_nat k) ltac:(lia))
      as [Hiff Hge].
    destruct (Nat.eq_dec (length (leftPaddedPrefix (1 + Z.of_nat k))) 6)
      as [E|E]; [apply Hiff in E; lia|lia].
Qed.

Lemma X17_line_number_column_witness :
  exists files,
    (forall fuel, (3 < fuel)%nat ->
       Convert.generateImages (B := Renderer.fixedWidthBackend) fuel
         [lit "a"; lit "b"; lit "c"] (lit "/out") 2 14 1400 = Some files)
    /\ Forall (fun p => length (fst p) = 6%nat) (linesDrawn files).
Proof.
  destruct (X17_line_number_column (B := Renderer.fixedWidthBackend)
              [lit "a"; lit "b"; lit "c"] (lit "/out") 2 14 1400
              eq_refl) as (files & Hrun & Hcol & _).
  exists files. split; [exact Hrun|]. apply Hcol. cbn. lia.
Defined.
